(** * Verification of the course-material RAG chatbot core

    Shallow embedding of [backend/ai_generator.py] (the bounded tool-use
    loop of [AIGenerator]) together with models of the collaborators whose
    code is exercised by the test-suite only ([session_manager],
    [vector_store], [search_tools], [rag_system], [config]).

    Python values are embedded as follows: [str] is [string] (the UTF-8
    bytes of the text), [list] is [list], [dict] used as a record is a
    [Record], [Optional[T]] is [option T], a dict used as a map is a
    [gmap], and a call that may raise returns an [Outcome]. *)

From Stdlib Require Import ZArith Lia.
From stdpp Require Import base option list strings pretty gmap.

Local Open Scope string_scope.
Local Open Scope list_scope.

(** ** Python strings *)

Module PyStr.

(** The double-quote character, [chr(34)]. *)
Definition dq : string := String (Ascii.ascii_of_nat 34) EmptyString.

(** The line feed, [chr(10)]. *)
Definition nl : string := String (Ascii.ascii_of_nat 10) EmptyString.

(** [sub in s] on [str]. *)
Fixpoint contains (sub s : string) : bool :=
  if String.prefix sub s then true
  else match s with
       | EmptyString => false
       | String _ s' => contains sub s'
       end.

(** [sep.join(parts)]. *)
Fixpoint join (sep : string) (parts : list string) : string :=
  match parts with
  | [] => ""
  | [p] => p
  | p :: rest => p +:+ sep +:+ join sep rest
  end.

(** Truthiness of an [Optional[str]]: [None] and [''] are falsy. *)
Definition truthy_str (o : option string) : bool :=
  match o with
  | Some (String _ _) => true
  | _ => false
  end.

(** Truthiness of an [Optional[List]]: [None] and [[]] are falsy. *)
Definition truthy_list {A : Type} (o : option (list A)) : bool :=
  match o with
  | Some (_ :: _) => true
  | _ => false
  end.

End PyStr.

(** ** Exceptions and outcomes of calls *)

(** An instance of a subclass of Python's [Exception]: its class name and
    [str(e)].  Signals that derive from [BaseException] only
    ([KeyboardInterrupt], [SystemExit]) are not values of this type. *)
Record Exception : Type := mkException { exc_class : string; exc_str : string }.

Definition IndexError : Exception :=
  mkException "IndexError" "list index out of range".

Definition AttributeError (cls attr : string) : Exception :=
  mkException "AttributeError"
    ("'" +:+ cls +:+ "' object has no attribute '" +:+ attr +:+ "'").

Inductive Outcome (A : Type) : Type :=
| Return (a : A)
| Raise (e : Exception).
Arguments Return {A} a.
Arguments Raise {A} e.

(** ** [backend/ai_generator.py] *)

Module AIGenerator.
Import PyStr.

(** *** The generation backend's data *)

(** A JSON value of a tool call's argument object. *)
Inductive JsonValue : Type :=
| JString (s : string)
| JInt (n : Z)
| JBool (b : bool)
| JNull.

(** [content_block.input]: the keyword arguments of a tool call. *)
Definition ToolInput : Type := list (string * JsonValue).

(** The content blocks of a response.  A [TextBlock] has a [text]
    attribute; a [ToolUseBlock] has [id], [name] and [input]; a
    [ThinkingBlock] has neither [text] nor the type ["tool_use"]. *)
Inductive ContentBlock : Type :=
| TextBlock (text : string)
| ToolUseBlock (id name : string) (input : ToolInput)
| ThinkingBlock (thinking : string).

(** [block.type] *)
Definition block_type (b : ContentBlock) : string :=
  match b with
  | TextBlock _ => "text"
  | ToolUseBlock _ _ _ => "tool_use"
  | ThinkingBlock _ => "thinking"
  end.

(** The class of a block, as [AttributeError] names it. *)
Definition block_class (b : ContentBlock) : string :=
  match b with
  | TextBlock _ => "TextBlock"
  | ToolUseBlock _ _ _ => "ToolUseBlock"
  | ThinkingBlock _ => "ThinkingBlock"
  end.

(** [block.text] when [hasattr(block, 'text')]. *)
Definition block_text (b : ContentBlock) : option string :=
  match b with
  | TextBlock t => Some t
  | _ => None
  end.

Record Response : Type := mkResponse {
  stop_reason : string;
  content : list ContentBlock
}.

(** A [{"type": "tool_result", ...}] entry.  [is_error] is [true] when the
    entry carries the key ["is_error": True] and [false] when the key is
    absent. *)
Record ToolResult : Type := mkToolResult {
  tool_use_id : string;
  result_content : string;
  is_error : bool
}.

(** The ["content"] of a message: the query text, the blocks of an
    assistant turn, or the tool results of a round. *)
Inductive MessageContent : Type :=
| Text (s : string)
| Blocks (bs : list ContentBlock)
| ToolResults (rs : list ToolResult).

Record Message : Type := mkMessage {
  role : string;
  message_content : MessageContent
}.

(** An entry of the tool catalog. *)
Record ToolDefinition : Type := mkToolDefinition {
  tool_name : string;
  tool_description : string;
  tool_properties : list (string * string);
  tool_required : list string
}.

(** The keyword arguments of [client.messages.create].  [tools] and
    [tool_choice] are [None] when the key is absent from the dict. *)
Record ApiParams : Type := mkApiParams {
  model : string;
  temperature : Z;
  max_tokens : Z;
  messages : list Message;
  system : string;
  tools : option (list ToolDefinition);
  tool_choice : option string
}.

(** [AIGenerator.SYSTEM_PROMPT] *)
Definition SYSTEM_PROMPT : string :=
  " You are an AI assistant specialized in course materials and educational content with access to search and outline tools.

Search Tool Usage:
- Use the search tool **only** for questions about specific course content or detailed educational materials
- Synthesize search results into accurate, fact-based responses
- If search yields no results, state this clearly without offering alternatives

Multi-Step Reasoning:
- For complex queries requiring multiple pieces of information, you may use tools sequentially
- First tool call: gather initial information
- Based on results, you may make ONE additional tool call if needed
- Maximum 2 tool rounds per query - plan your searches efficiently

Outline Tool Usage:
- Use the outline tool for questions about course structure, lesson lists, or " +:+ dq +:+
  "what lessons are in this course" +:+ dq +:+
  "
- Returns course title, course link, and complete lesson list with numbers and titles
- Present the outline in a clear, organized format

Response Protocol:
- **General knowledge questions**: Answer using existing knowledge without searching
- **Course-specific questions**: Search first, then answer
- **Course outline/structure questions**: Use the outline tool, then present the full course title, course link, and all lesson numbers with titles
- **No meta-commentary**:
 - Provide direct answers only â€” no reasoning process, search explanations, or question-type analysis
 - Do not mention " +:+ dq +:+
  "based on the search results" +:+ dq +:+
  "

All responses must be:
1. **Brief, Concise and focused** - Get to the point quickly
2. **Educational** - Maintain instructional value
3. **Clear** - Use accessible language
4. **Example-supported** - Include relevant examples when they aid understanding
Provide only the direct answer to what was asked.
".

(** *** The generator

    [Client] is the state of the Anthropic client (and of whatever stands
    behind it), [Tools] the state of the tool manager.  [messages_create] is
    [client.messages.create]; [self_model] is [self.model];
    [MAX_TOOL_ROUNDS] is [config.MAX_TOOL_ROUNDS], a parameter here (2 in
    the reference configuration). *)

Section Generator.

Variable Client : Type.
Variable messages_create : Client -> ApiParams -> Outcome Response * Client.
Variable Tools : Type.
Variable self_model : string.
Variable MAX_TOOL_ROUNDS : nat.

(** A tool manager: its [execute_tool], given a name and keywords, reads and
    updates the tool state and returns text or raises. *)
Definition ToolManager : Type :=
  Tools -> string -> ToolInput -> Outcome string * Tools.

(** The state a query runs in.  [calls] records every backend call, its
    arguments as they are when the call is made and its outcome, and
    [executed] every tool invocation, oldest first (what a mock of the
    client and of the tool manager records). *)
Record World : Type := mkWorld {
  client : Client;
  tool_state : Tools;
  calls : list (ApiParams * Outcome Response);
  executed : list (string * ToolInput)
}.

(** The arguments of the backend calls made so far. *)
Definition call_args_list (w : World) : list ApiParams := (calls w).*1.

(** Computations that read and update the world and return or raise. *)
Definition M (A : Type) : Type := World -> Outcome A * World.

Definition ret {A : Type} (a : A) : M A := fun w => (Return a, w).

Definition raise {A : Type} (e : Exception) : M A := fun w => (Raise e, w).

Definition bind {A B : Type} (m : M A) (k : A -> M B) : M B :=
  fun w =>
    match m w with
    | (Return a, w') => k a w'
    | (Raise e, w') => (Raise e, w')
    end.

Notation "x <- m ;; k" := (bind m (fun x => k))
  (at level 100, m at next level, right associativity).

(** [self.client.messages.create] applied to the keywords [api_params] *)
Definition create (api_params : ApiParams) : M Response :=
  fun w =>
    let '(r, c) := messages_create (client w) api_params in
    (r, mkWorld c (tool_state w) (calls w ++ [(api_params, r)]) (executed w)).

(** [tool_manager.execute_tool] applied to [name] and the keywords [input],
    under [try]/[except Exception]: the outcome is handed to the caller as a
    value. *)
Definition try_execute_tool (tool_manager : ToolManager)
    (name : string) (input : ToolInput) : M (Outcome string) :=
  fun w =>
    let '(r, t) := tool_manager (tool_state w) name input in
    (Return r,
     mkWorld (client w) t (calls w) (executed w ++ [(name, input)])).

(** [self.base_params] with ["messages"], ["system"] and, when given, the
    tool catalog with [tool_choice = {"type": "auto"}]. *)
Definition make_params (msgs : list Message) (sys : string)
    (catalog : option (list ToolDefinition)) : ApiParams :=
  mkApiParams self_model 0 800 msgs sys catalog
    (match catalog with Some _ => Some "auto" | None => None end).

(** [_extract_text_from_response] *)
Fixpoint first_text (blocks : list ContentBlock) : string :=
  match blocks with
  | [] => ""
  | block :: rest =>
      match block_text block with
      | Some t => t
      | None => first_text rest
      end
  end.

Definition _extract_text_from_response (response : Response) : string :=
  first_text (content response).

(** The body of [for content_block in current_response.content]: the
    accumulated [tool_results] and [execution_error] are threaded through
    the blocks. *)
Fixpoint execute_tool_calls (tool_manager : ToolManager)
    (blocks : list ContentBlock)
    (tool_results : list ToolResult) (execution_error : option Exception)
    : M (list ToolResult * option Exception) :=
  match blocks with
  | [] => ret (tool_results, execution_error)
  | content_block :: rest =>
      match content_block with
      | ToolUseBlock id name input =>
          r <- try_execute_tool tool_manager name input ;;
          match r with
          | Return result =>
              execute_tool_calls tool_manager rest
                (tool_results ++ [mkToolResult id result false])
                execution_error
          | Raise e =>
              execute_tool_calls tool_manager rest
                (tool_results ++
                   [mkToolResult id ("Tool execution error: " +:+ exc_str e) true])
                (Some e)
          end
      | _ => execute_tool_calls tool_manager rest tool_results execution_error
      end
  end.

(** The [while round_count < config.MAX_TOOL_ROUNDS] loop of
    [_handle_tool_execution].  [remaining] is the loop's variant
    [MAX_TOOL_ROUNDS - round_count]: the guard holds exactly when it is not
    zero. *)
Fixpoint tool_rounds (tool_manager : ToolManager) (base_params : ApiParams)
    (remaining round_count : nat)
    (msgs : list Message) (current_response : Response) : M Response :=
  match remaining with
  | 0 => ret current_response
  | S remaining' =>
      let round_count := S round_count in
      let msgs := msgs ++ [mkMessage "assistant" (Blocks (content current_response))] in
      res <- execute_tool_calls tool_manager (content current_response) [] None ;;
      let '(tool_results, execution_error) := res in
      let msgs :=
        match tool_results with
        | [] => msgs
        | _ :: _ => msgs ++ [mkMessage "user" (ToolResults tool_results)]
        end in
      let can_use_more_tools :=
        (round_count <? MAX_TOOL_ROUNDS)%nat
        && match execution_error with None => true | Some _ => false end in
      let api_params :=
        make_params msgs (system base_params)
          (if can_use_more_tools && truthy_list (tools base_params)
           then tools base_params else None) in
      current_response <- create api_params ;;
      if negb (String.eqb (stop_reason current_response) "tool_use")
      then ret current_response
      else tool_rounds tool_manager base_params remaining' round_count
             msgs current_response
  end.

Definition _handle_tool_execution (initial_response : Response)
    (base_params : ApiParams) (tool_manager : ToolManager) : M string :=
  final <- tool_rounds tool_manager base_params MAX_TOOL_ROUNDS 0
             (messages base_params) initial_response ;;
  ret (_extract_text_from_response final).

(** [response.content[0].text] *)
Definition content_0_text (response : Response) : M string :=
  match content response with
  | [] => raise IndexError
  | block :: _ =>
      match block_text block with
      | Some t => ret t
      | None => raise (AttributeError (block_class block) "text")
      end
  end.

(** [system_content]: the f-string is evaluated on a truthy history only. *)
Definition system_content (conversation_history : option string) : string :=
  if truthy_str conversation_history
  then SYSTEM_PROMPT +:+ nl +:+ nl +:+ "Previous conversation:" +:+ nl
       +:+ default "" conversation_history
  else SYSTEM_PROMPT.

Definition generate_response (query : string)
    (conversation_history : option string)
    (tools_arg : option (list ToolDefinition))
    (tool_manager : option ToolManager) : M string :=
  let api_params :=
    make_params [mkMessage "user" (Text query)]
      (system_content conversation_history)
      (if truthy_list tools_arg then tools_arg else None) in
  response <- create api_params ;;
  match (if String.eqb (stop_reason response) "tool_use"
         then tool_manager else None) with
  | Some tm => _handle_tool_execution response api_params tm
  | None => content_0_text response
  end.

(** The tool invocations a response asks for, in order. *)
Fixpoint tool_use_calls (blocks : list ContentBlock) : list (string * ToolInput) :=
  match blocks with
  | [] => []
  | ToolUseBlock _ name input :: rest => (name, input) :: tool_use_calls rest
  | _ :: rest => tool_use_calls rest
  end.

(** The identifiers of those invocations. *)
Fixpoint tool_use_ids (blocks : list ContentBlock) : list string :=
  match blocks with
  | [] => []
  | ToolUseBlock id _ _ :: rest => id :: tool_use_ids rest
  | _ :: rest => tool_use_ids rest
  end.

(** The tool state reached from [t] once the invocations of [blocks] have
    run in order. *)
Fixpoint tool_state_after (tool_manager : ToolManager)
    (blocks : list ContentBlock) (t : Tools) : Tools :=
  match blocks with
  | [] => t
  | ToolUseBlock _ name input :: rest =>
      tool_state_after tool_manager rest (snd (tool_manager t name input))
  | _ :: rest => tool_state_after tool_manager rest t
  end.

(** What a turn of the loop owes its caller when, among the tool calls of
    [resp], the one at position [k], with identifier [id], raised [e]:
    - [results], one entry per requested call, holds at [k] an entry tagged
      as an error whose text carries [str(e)];
    - the next backend request [p] is sent with the assistant turn and these
      results appended to [msgs], and without the catalog;
    - every call of [resp] was invoked before [p] was sent;
    - when the backend fails on [p], that failure is the outcome; when it
      answers without asking for tools, its response is the outcome; in both
      cases no further tool is invoked and no further backend call made. *)
Definition isolates_failure (tool_manager : ToolManager) (base_params : ApiParams)
    (remaining round_count : nat) (msgs : list Message) (resp : Response)
    (w : World) (k : nat) (id : string) (e : Exception) : Prop :=
  let R := tool_rounds tool_manager base_params (S remaining) round_count msgs resp w in
  exists results p,
    map tool_use_id results = tool_use_ids (content resp)
    /\ results !! k
       = Some (mkToolResult id ("Tool execution error: " +:+ exc_str e) true)
    /\ messages p
       = msgs ++ [mkMessage "assistant" (Blocks (content resp));
                  mkMessage "user" (ToolResults results)]
    /\ system p = system base_params
    /\ tools p = None
    /\ exists later rest,
         executed (snd R) = executed w ++ tool_use_calls (content resp) ++ later
         /\ calls (snd R) = calls w ++ (p, fst (messages_create (client w) p)) :: rest
         /\ match fst (messages_create (client w) p) with
            | Raise x => fst R = Raise x /\ later = [] /\ rest = []
            | Return r =>
                String.eqb (stop_reason r) "tool_use" = false ->
                fst R = Return r /\ later = [] /\ rest = []
            end.

(** The outcome of [generate_response] once tool rounds were entered: the
    text of the response to the last backend call, or the exception that
    call raised. *)
Definition outcome_of_last_call (result : Outcome string * World) : Prop :=
  exists p o,
    last (calls (snd result)) = Some (p, o)
    /\ fst result
       = match o with
         | Return final => Return (_extract_text_from_response final)
         | Raise x => Raise x
         end.

(** What a turn of the loop comes to when, among the tool calls of [resp],
    the one at position [k], with identifier [id], raised [e], in front of
    a backend that does not ask for tools it was not offered:
    - [results], one entry per requested call, holds at [k] an entry tagged
      as an error whose text carries [str(e)];
    - every call of [resp] was invoked, and no tool after them;
    - one more backend request [p] is made, with the assistant turn and
      these results appended to [msgs], and without the catalog;
    - the outcome of that request is the outcome of the loop. *)
Definition ends_tool_use (tool_manager : ToolManager) (base_params : ApiParams)
    (remaining round_count : nat) (msgs : list Message) (resp : Response)
    (w : World) (k : nat) (id : string) (e : Exception) : Prop :=
  let R := tool_rounds tool_manager base_params (S remaining) round_count msgs resp w in
  exists results p,
    map tool_use_id results = tool_use_ids (content resp)
    /\ results !! k
       = Some (mkToolResult id ("Tool execution error: " +:+ exc_str e) true)
    /\ messages p
       = msgs ++ [mkMessage "assistant" (Blocks (content resp));
                  mkMessage "user" (ToolResults results)]
    /\ system p = system base_params
    /\ tools p = None
    /\ executed (snd R) = executed w ++ tool_use_calls (content resp)
    /\ calls (snd R) = calls w ++ [(p, fst (messages_create (client w) p))]
    /\ fst R = fst (messages_create (client w) p).

End Generator.

Arguments mkWorld {Client Tools} _ _ _ _.
Arguments isolates_failure {Client} messages_create {Tools} _ _ _ _ _ _ _ _ _ _ _ _.
Arguments ends_tool_use {Client} messages_create {Tools} _ _ _ _ _ _ _ _ _ _ _ _.
Arguments outcome_of_last_call {Client Tools} _.
Arguments ret {Client Tools A} _ _.
Arguments raise {Client Tools A} _ _.
Arguments bind {Client Tools A B} _ _ _.
Arguments create {Client} messages_create {Tools} _ _.
Arguments try_execute_tool {Client Tools} _ _ _ _.
Arguments execute_tool_calls {Client Tools} _ _ _ _ _.
Arguments tool_rounds {Client} messages_create {Tools} _ _ _ _ _ _ _ _ _.
Arguments _handle_tool_execution {Client} messages_create {Tools} _ _ _ _ _ _.
Arguments content_0_text {Client Tools} _ _.
Arguments generate_response {Client} messages_create {Tools} _ _ _ _ _ _ _.
Arguments tool_state_after {Tools} _ _ _.
Arguments client {Client Tools} _.
Arguments tool_state {Client Tools} _.
Arguments calls {Client Tools} _.
Arguments executed {Client Tools} _.
Arguments call_args_list {Client Tools} _.

(** *** The shape of a query's backend calls *)

(** A logged backend call that returned a response asking for tools. *)
Definition asked_for_tools (c : ApiParams * Outcome Response) : Prop :=
  exists r, snd c = Return r /\ stop_reason r = "tool_use".

(** The tool invocations the response of a logged call asks for. *)
Definition requested_calls (c : ApiParams * Outcome Response)
    : list (string * ToolInput) :=
  match snd c with
  | Return r => tool_use_calls (content r)
  | Raise _ => []
  end.

(** The request of [next] continues the conversation of [prev]: it replays
    the messages of [prev], then the blocks [prev] was answered with as the
    assistant turn, then, when that answer asked for tools, one user message
    with a result per request, in the order of the requests. *)
Definition continues (prev next : ApiParams * Outcome Response) : Prop :=
  exists r results,
    snd prev = Return r
    /\ map tool_use_id results = tool_use_ids (content r)
    /\ messages (fst next)
       = messages (fst prev)
         ++ mkMessage "assistant" (Blocks (content r))
            :: match results with
               | [] => []
               | _ :: _ => [mkMessage "user" (ToolResults results)]
               end.

(** Every call of [rest] continues the one before it, starting from [prev]. *)
Fixpoint chained (prev : ApiParams * Outcome Response)
    (rest : list (ApiParams * Outcome Response)) : Prop :=
  match rest with
  | [] => True
  | c :: rest' => continues prev c /\ chained c rest'
  end.

(** *** Mocks of the collaborators, as the test-suite builds them *)

(** [mock_client.messages.create.side_effect = [...]]: the outcomes are
    handed out in order; [StopIteration] once they are used up. *)
Definition side_effect (c : list (Outcome Response)) (_ : ApiParams)
    : Outcome Response * list (Outcome Response) :=
  match c with
  | r :: rest => (r, rest)
  | [] => (Raise (mkException "StopIteration" ""), [])
  end.

(** [mock_client.messages.create.return_value = response] *)
Definition return_value (response : Response) (c : unit) (_ : ApiParams)
    : Outcome Response * unit :=
  (Return response, c).

(** [mock_tool_manager.execute_tool.return_value = result] *)
Definition tool_returns (result : string) : ToolManager unit :=
  fun t _ _ => (Return result, t).

(** [mock_tool_manager.execute_tool.side_effect = Exception(msg)] *)
Definition tool_raises (msg : string) : ToolManager unit :=
  fun t _ _ => (Raise (mkException "Exception" msg), t).

(** [_create_tool_use_response] and [_create_text_response] of the tests. *)
Definition tool_use_response (name : string) (input : ToolInput) (id : string)
    : Response :=
  mkResponse "tool_use" [ToolUseBlock id name input].

Definition text_response (text : string) : Response :=
  mkResponse "end_turn" [TextBlock text].

Definition search_catalog : list ToolDefinition :=
  [mkToolDefinition "search_course_content" "Search course materials"
     [("query", "string"); ("course_name", "string"); ("lesson_number", "integer")]
     ["query"]].

(** A response that asks for one search, as the tests build it. *)
Definition asks_search : Response :=
  tool_use_response "search_course_content" [("query", JString "q1")] "t1".

(** A backend that asks for a search whenever it is offered tools, and
    answers in text when it is not. *)
Definition answers_when_offered (c : unit) (api_params : ApiParams)
    : Outcome Response * unit :=
  match tools api_params with
  | Some _ => (Return asks_search, c)
  | None => (Return (text_response "Response after error"), c)
  end.

(** A fresh world around a client state and a tool state. *)
Definition fresh {Client Tools : Type} (c : Client) (t : Tools) : World Client Tools :=
  mkWorld c t [] [].

End AIGenerator.

(** ** [backend/session_manager.py]

    The module itself is exercised by [tests/test_session_manager.py] only;
    its operations are modelled from the specification of the conversation
    memory. *)

Module SessionManager.
Import PyStr.

(** Modelled from the spec: the role of a message, [user] or [assistant]. *)
Inductive Role : Type := user | assistant.

(** The role capitalised, [role.title()]. *)
Definition role_title (r : Role) : string :=
  match r with
  | user => "User"
  | assistant => "Assistant"
  end.

(** Modelled from the spec: a message, its role and its text. *)
Record Message : Type := mkMessage { role : Role; content : string }.

(** Modelled from the spec: the state of a [SessionManager], namely the
    bound [max_history], the sessions keyed by identifier and the counter
    the identifiers are drawn from. *)
Record t : Type := mk {
  max_history : nat;
  sessions : gmap string (list Message);
  session_counter : nat
}.

(** Modelled from the spec: [SessionManager(max_history)], with no session. *)
Definition new (max_history : nat) : t := mk max_history ∅ 0.

(** Modelled from the spec: [create_session] assigns the next identifier
    [session_n], counting from 1, and registers an empty message list. *)
Definition create_session (sm : t) : string * t :=
  let n := S (session_counter sm) in
  let session_id := "session_" +:+ pretty n in
  (session_id, mk (max_history sm) (<[session_id := []]> (sessions sm)) n).

(** Modelled from the spec: the trimming policy.  When the stored count
    exceeds [2 * max_history] the oldest messages are dropped until exactly
    [2 * max_history] remain. *)
Definition trim (max_history : nat) (msgs : list Message) : list Message :=
  if (2 * max_history <? length msgs)%nat
  then drop (length msgs - 2 * max_history) msgs
  else msgs.

(** Modelled from the spec: [add_message] appends a message, creating the
    session when the identifier is unknown, then trims. *)
Definition add_message (sm : t) (session_id : string) (r : Role) (text : string) : t :=
  let stored := default [] (sessions sm !! session_id) in
  mk (max_history sm)
     (<[session_id := trim (max_history sm) (stored ++ [mkMessage r text])]> (sessions sm))
     (session_counter sm).

(** Modelled from the spec: [add_exchange] appends a user message, then an
    assistant message. *)
Definition add_exchange (sm : t) (session_id user_text assistant_text : string) : t :=
  add_message (add_message sm session_id user user_text)
    session_id assistant assistant_text.

(** One line of the rendered history. *)
Definition render (m : Message) : string :=
  role_title (role m) +:+ ": " +:+ content m.

(** Modelled from the spec: [get_conversation_history] is [None] for an
    unknown session and for one without messages, and otherwise the
    rendered messages, oldest first, joined by line feeds. *)
Definition get_conversation_history (sm : t) (session_id : string) : option string :=
  match sessions sm !! session_id with
  | Some (m :: msgs) => Some (join nl (map render (m :: msgs)))
  | _ => None
  end.

(** Modelled from the spec: [clear_session] empties the message list of a
    known session and does nothing for an unknown one. *)
Definition clear_session (sm : t) (session_id : string) : t :=
  match sessions sm !! session_id with
  | Some _ => mk (max_history sm) (<[session_id := []]> (sessions sm)) (session_counter sm)
  | None => sm
  end.

(** The mutations a caller can apply, and their effect in sequence. *)
Inductive Op : Type :=
| CreateSession
| AddMessage (session_id : string) (r : Role) (text : string)
| AddExchange (session_id user_text assistant_text : string)
| ClearSession (session_id : string).

Definition step (sm : t) (op : Op) : t :=
  match op with
  | CreateSession => snd (create_session sm)
  | AddMessage s r text => add_message sm s r text
  | AddExchange s u a => add_exchange sm s u a
  | ClearSession s => clear_session sm s
  end.

Definition run (ops : list Op) (sm : t) : t := fold_left step ops sm.

(** Every stored session is within the bound. *)
Definition bounded (sm : t) : Prop :=
  map_Forall (fun _ msgs => (length msgs <= 2 * max_history sm)%nat) (sessions sm).

(** The test [test_most_recent_messages_kept]: five exchanges
    [(Q0, A0) ... (Q4, A4)] on a fresh session of a manager with
    [max_history = 2]. *)
Definition five_exchanges : t :=
  let '(session_id, sm) := create_session (new 2) in
  run [AddExchange session_id "Q0" "A0"; AddExchange session_id "Q1" "A1";
       AddExchange session_id "Q2" "A2"; AddExchange session_id "Q3" "A3";
       AddExchange session_id "Q4" "A4"] sm.

End SessionManager.

(** ** [backend/vector_store.py]

    Exercised by [tests/test_vector_store.py] only. *)

Module VectorStore.

(** Modelled from the spec: an equality condition on the metadata of a
    chunk, [{"course_title": c}] or [{"lesson_number": n}]. *)
Inductive Condition : Type :=
| CourseTitle (c : string)
| LessonNumber (n : Z).

(** Modelled from the spec: a metadata filter of the content index, a
    single condition or [{"$and": [...]}] over several. *)
Inductive Filter : Type :=
| Single (c : Condition)
| And (conditions : list Condition).

(** Modelled from the spec: [_build_filter] gives no filter when neither
    argument is given, a single equality filter when one is, and the
    conjunction of both equality filters when both are. *)
Definition _build_filter (course_title : option string) (lesson_number : option Z)
    : option Filter :=
  match course_title, lesson_number with
  | None, None => None
  | Some c, None => Some (Single (CourseTitle c))
  | None, Some n => Some (Single (LessonNumber n))
  | Some c, Some n => Some (And [CourseTitle c; LessonNumber n])
  end.

End VectorStore.

(** ** [backend/search_tools.py]

    Exercised by [tests/test_search_tools.py] only. *)

Module ToolManager.

(** Modelled from the spec: a citation, its title and its optional link. *)
Record Citation : Type := mkCitation { title : string; url : option string }.

(** Modelled from the spec: a registered tool, namely its catalog entry, its
    citation buffer [last_sources], and [execute], which returns text or
    raises and leaves the buffer it is to hold afterwards. *)
Record Tool : Type := mkTool {
  definition : AIGenerator.ToolDefinition;
  last_sources : list Citation;
  execute : list Citation -> AIGenerator.ToolInput -> Outcome string * list Citation
}.

Definition name (tool : Tool) : string := AIGenerator.tool_name (definition tool).

Definition set_sources (tool : Tool) (sources : list Citation) : Tool :=
  mkTool (definition tool) sources (execute tool).

(** Modelled from the spec: the registry maps a declared name to its tool;
    the entries are kept in registration order. *)
Definition t : Type := list (string * Tool).

(** Modelled from the spec: [register_tool]; the last registration of a
    name wins. *)
Fixpoint register_tool (tool : Tool) (tm : t) : t :=
  match tm with
  | [] => [(name tool, tool)]
  | (n, old) :: rest =>
      if String.eqb n (name tool) then (n, tool) :: rest
      else (n, old) :: register_tool tool rest
  end.

(** Modelled from the spec: [get_tool_definitions], one entry per tool. *)
Definition get_tool_definitions (tm : t) : list AIGenerator.ToolDefinition :=
  map (fun entry => definition (snd entry)) tm.

(** Modelled from the spec: [execute_tool] dispatches to the tool of that
    name and returns the sentinel text for an unregistered name. *)
Fixpoint execute_tool (tm : t) (tool_name : string) (input : AIGenerator.ToolInput)
    : Outcome string * t :=
  match tm with
  | [] => (Return ("Tool '" +:+ tool_name +:+ "' not found"), [])
  | (n, tool) :: rest =>
      if String.eqb n tool_name
      then let '(r, sources) := execute tool (last_sources tool) input in
           (r, (n, set_sources tool sources) :: rest)
      else let '(r, rest') := execute_tool rest tool_name input in
           (r, (n, tool) :: rest')
  end.

(** Modelled from the spec: [get_last_sources] hands out the citations of a
    registered tool whose buffer is populated, and the empty list when no
    buffer is.  The tools are scanned in registration order; the tool found
    is the one that populated its buffer last whenever a single tool fired
    since the last reset. *)
Fixpoint get_last_sources (tm : t) : list Citation :=
  match tm with
  | [] => []
  | (_, tool) :: rest =>
      match last_sources tool with
      | [] => get_last_sources rest
      | sources => sources
      end
  end.

(** Modelled from the spec: [reset_sources] clears the buffer of every
    registered tool. *)
Definition reset_sources (tm : t) : t :=
  map (fun entry => (fst entry, set_sources (snd entry) [])) tm.

(** Every registered tool's citation buffer is empty. *)
Definition buffers_empty (tm : t) : Prop :=
  Forall (fun entry => last_sources (snd entry) = []) tm.

End ToolManager.

(** ** [backend/rag_system.py]

    Exercised by [tests/test_rag_system.py] only. *)

Module RAGSystem.

Section Query.

Variable Client : Type.
Variable messages_create :
  Client -> AIGenerator.ApiParams -> Outcome AIGenerator.Response * Client.
Variable self_model : string.
Variable MAX_TOOL_ROUNDS : nat.

(** Modelled from the spec: the state of a [RAGSystem], namely the world
    its generator runs in, with the tool registry as tool state, and the
    conversation memory. *)
Record t : Type := mk {
  world : AIGenerator.World Client ToolManager.t;
  session_manager : SessionManager.t
}.

(** Modelled from the spec: [query], the orchestrating caller.  It reads the
    history of the session, runs the generator with the catalog and the
    registry, collects the citations once the answer is there, resets them,
    and records the exchange in the conversation memory.  A failure of the
    generator propagates. *)
Definition query (rag : t) (text : string) (session_id : option string)
    : Outcome (string * list ToolManager.Citation) * t :=
  let history :=
    match session_id with
    | Some s => SessionManager.get_conversation_history (session_manager rag) s
    | None => None
    end in
  let catalog := ToolManager.get_tool_definitions (AIGenerator.tool_state (world rag)) in
  match AIGenerator.generate_response messages_create self_model
          MAX_TOOL_ROUNDS text history (Some catalog)
          (Some ToolManager.execute_tool) (world rag) with
  | (Return response, w) =>
      let sources := ToolManager.get_last_sources (AIGenerator.tool_state w) in
      let w' :=
        AIGenerator.mkWorld (AIGenerator.client w)
          (ToolManager.reset_sources (AIGenerator.tool_state w))
          (AIGenerator.calls w) (AIGenerator.executed w) in
      let sm :=
        match session_id with
        | Some s => SessionManager.add_exchange (session_manager rag) s text response
        | None => session_manager rag
        end in
      (Return (response, sources), mk w' sm)
  | (Raise e, w) => (Raise e, mk w (session_manager rag))
  end.

End Query.

Arguments mk {Client} _ _.
Arguments world {Client} _.
Arguments session_manager {Client} _.
Arguments query {Client} messages_create _ _ _ _ _.

(** A system with one registered search tool whose [execute] finds a passage
    of lesson 0 and cites it, in front of a backend that asks for a search,
    answers, and then answers a second query directly. *)
Definition lesson_citation : ToolManager.Citation :=
  ToolManager.mkCitation "Test Course - Lesson 0" (Some "https://example.com/lesson0").

Definition search_tool : ToolManager.Tool :=
  ToolManager.mkTool
    (AIGenerator.mkToolDefinition "search_course_content" "Search course materials"
       [("query", "string"); ("course_name", "string"); ("lesson_number", "integer")]
       ["query"])
    []
    (fun _ _ => (Return "[Test Course - Lesson 0] Test content about Python programming",
                 [lesson_citation])).

Definition two_queries : t (list (Outcome AIGenerator.Response)) :=
  mk (AIGenerator.fresh
        [Return AIGenerator.asks_search;
         Return (AIGenerator.text_response "Python is a programming language.");
         Return (AIGenerator.text_response "4")]
        (ToolManager.register_tool search_tool []))
     (SessionManager.new 2).

End RAGSystem.

Module AIGeneratorFacts.
Import PyStr AIGenerator.

Section Facts.

Variable Client : Type.
Variable messages_create : Client -> ApiParams -> Outcome Response * Client.
Variable Tools : Type.
Variable self_model : string.
Variable MAX_TOOL_ROUNDS : nat.

Implicit Types (tm : ToolManager Tools) (w : World Client Tools).
Implicit Types (blocks pre post : list ContentBlock) (resp : Response).

Lemma tool_use_calls_app pre post :
  tool_use_calls (pre ++ post) = tool_use_calls pre ++ tool_use_calls post.
Proof.
  induction pre as [|b pre IH]; [reflexivity|].
  destruct b; simpl; rewrite IH; reflexivity.
Qed.

Lemma tool_use_ids_app pre post :
  tool_use_ids (pre ++ post) = tool_use_ids pre ++ tool_use_ids post.
Proof.
  induction pre as [|b pre IH]; [reflexivity|].
  destruct b; simpl; rewrite IH; reflexivity.
Qed.

Lemma tool_state_after_app tm pre post t :
  tool_state_after tm (pre ++ post) t
  = tool_state_after tm post (tool_state_after tm pre t).
Proof.
  revert t; induction pre as [|b pre IH]; intros t; [reflexivity|].
  destruct b; simpl; apply IH.
Qed.

(** The [for] loop runs every requested call, whatever the earlier ones
    did: it never raises, leaves the backend alone, appends one entry per
    call to the results it was given, and keeps an error once recorded. *)
Lemma execute_tool_calls_runs tm blocks :
  forall acc err w,
  exists results err',
    execute_tool_calls tm blocks acc err w
    = (Return (acc ++ results, err'),
       mkWorld (client w) (tool_state_after tm blocks (tool_state w))
         (calls w) (executed w ++ tool_use_calls blocks))
    /\ map tool_use_id results = tool_use_ids blocks
    /\ (is_Some err -> is_Some err').
Proof.
  induction blocks as [|b blocks IH]; intros acc err w.
  - exists [], err. simpl. rewrite !app_nil_r. destruct w; auto.
  - destruct b as [text|id name input|th]; simpl.
    + apply IH.
    + unfold bind, try_execute_tool.
      destruct (tm (tool_state w) name input) as [[result|e] t'] eqn:E; simpl.
      * destruct (IH (acc ++ [mkToolResult id result false]) err
                    (mkWorld (client w) t' (calls w) (executed w ++ [(name, input)])))
          as (results & err' & Hrun & Hids & Herr).
        exists (mkToolResult id result false :: results), err'.
        rewrite Hrun; simpl. rewrite <- !app_assoc. simpl.
        split; [reflexivity|]. split; [f_equal; exact Hids|exact Herr].
      * destruct (IH (acc ++ [mkToolResult id ("Tool execution error: " +:+ exc_str e) true])
                    (Some e)
                    (mkWorld (client w) t' (calls w) (executed w ++ [(name, input)])))
          as (results & err' & Hrun & Hids & Herr).
        exists (mkToolResult id ("Tool execution error: " +:+ exc_str e) true :: results), err'.
        rewrite Hrun; simpl. rewrite <- !app_assoc. simpl.
        split; [reflexivity|]. split; [f_equal; exact Hids|].
        intros _. apply Herr. eauto.
    + apply IH.
Qed.


(** A call that raises in the middle of a round: the calls after it still
    run, its entry is tagged as an error and carries the failure text, and
    the error is recorded. *)
Lemma execute_tool_calls_failing tm pre id name input post e t' :
  forall acc err w,
  tm (tool_state_after tm pre (tool_state w)) name input = (Raise e, t') ->
  exists results err',
    execute_tool_calls tm (pre ++ ToolUseBlock id name input :: post) acc err w
    = (Return (acc ++ results, Some err'),
       mkWorld (client w)
         (tool_state_after tm (pre ++ ToolUseBlock id name input :: post) (tool_state w))
         (calls w)
         (executed w ++ tool_use_calls (pre ++ ToolUseBlock id name input :: post)))
    /\ map tool_use_id results = tool_use_ids (pre ++ ToolUseBlock id name input :: post)
    /\ results !! length (tool_use_ids pre)
       = Some (mkToolResult id ("Tool execution error: " +:+ exc_str e) true).
Proof.
  induction pre as [|b pre IH]; intros acc err w Hraise.
  - simpl in *. unfold bind, try_execute_tool. rewrite Hraise. simpl.
    destruct (execute_tool_calls_runs tm post
                (acc ++ [mkToolResult id ("Tool execution error: " +:+ exc_str e) true])
                (Some e)
                (mkWorld (client w) t' (calls w) (executed w ++ [(name, input)])))
      as (results & err' & Hrun & Hids & Herr).
    destruct Herr as [e' ->]; [eauto|].
    exists (mkToolResult id ("Tool execution error: " +:+ exc_str e) true :: results), e'.
    rewrite Hrun. simpl. rewrite <- !app_assoc. simpl.
    split; [reflexivity|]. split; [f_equal; exact Hids|reflexivity].
  - destruct b as [text|id0 name0 input0|th]; simpl in *.
    + apply IH, Hraise.
    + unfold bind, try_execute_tool.
      destruct (tm (tool_state w) name0 input0) as [[result|e0] t0] eqn:E;
        simpl in Hraise |- *.
      * destruct (IH (acc ++ [mkToolResult id0 result false]) err
                    (mkWorld (client w) t0 (calls w) (executed w ++ [(name0, input0)]))
                    Hraise)
          as (results & err' & Hrun & Hids & Hentry).
        exists (mkToolResult id0 result false :: results), err'.
        rewrite Hrun. simpl. rewrite <- !app_assoc. simpl.
        split; [reflexivity|]. split; [f_equal; exact Hids|exact Hentry].
      * destruct (IH (acc ++ [mkToolResult id0
                                ("Tool execution error: " +:+ exc_str e0) true])
                    (Some e0)
                    (mkWorld (client w) t0 (calls w) (executed w ++ [(name0, input0)]))
                    Hraise)
          as (results & err' & Hrun & Hids & Hentry).
        exists (mkToolResult id0 ("Tool execution error: " +:+ exc_str e0) true
                  :: results), err'.
        rewrite Hrun. simpl. rewrite <- !app_assoc. simpl.
        split; [reflexivity|]. split; [f_equal; exact Hids|exact Hentry].
    + apply IH, Hraise.
Qed.


Local Abbreviation rounds := (tool_rounds messages_create self_model MAX_TOOL_ROUNDS).

(** One turn of the [while] loop, given what its [for] loop produced. *)
Lemma tool_rounds_step tm bp remaining rc msgs resp w results err w1 msgs' p :
  execute_tool_calls tm (content resp) [] None w = (Return (results, err), w1) ->
  msgs' = match results with
          | [] => msgs ++ [mkMessage "assistant" (Blocks (content resp))]
          | _ :: _ =>
              (msgs ++ [mkMessage "assistant" (Blocks (content resp))])
              ++ [mkMessage "user" (ToolResults results)]
          end ->
  p = make_params self_model msgs' (system bp)
        (if ((S rc <? MAX_TOOL_ROUNDS)%nat
             && match err with None => true | Some _ => false end)
            && truthy_list (tools bp)
         then tools bp else None) ->
  rounds tm bp (S remaining) rc msgs resp w
  = match messages_create (client w1) p with
    | (Return r, c) =>
        let w2 := mkWorld c (tool_state w1) (calls w1 ++ [(p, Return r)]) (executed w1) in
        if negb (String.eqb (stop_reason r) "tool_use")
        then (Return r, w2)
        else rounds tm bp remaining (S rc) msgs' r w2
    | (Raise x, c) =>
        (Raise x, mkWorld c (tool_state w1) (calls w1 ++ [(p, Raise x)]) (executed w1))
    end.
Proof.
  intros Hfor -> ->. cbn [tool_rounds]. unfold bind at 1. rewrite Hfor.
  unfold bind, create.
  destruct (messages_create (client w1) _) as [[r|x] c]; [|reflexivity].
  cbn zeta. destruct (negb (String.eqb (stop_reason r) "tool_use")); reflexivity.
Qed.


Lemma tool_state_after_no_calls tm blocks t :
  tool_use_calls blocks = [] -> tool_state_after tm blocks t = t.
Proof.
  induction blocks as [|b blocks IH]; [reflexivity|].
  destruct b; simpl; try discriminate; exact IH.
Qed.

(** The outcome of the loop is the outcome of its last backend call: the
    response it returned, or the exception it raised.  No exception of a
    tool reaches the caller. *)
Lemma tool_rounds_outcome tm bp remaining :
  forall rc msgs resp w,
  (0 < remaining)%nat ->
  exists p,
    last (calls (snd (rounds tm bp remaining rc msgs resp w)))
    = Some (p, fst (rounds tm bp remaining rc msgs resp w)).
Proof.
  induction remaining as [|remaining IH]; intros rc msgs resp w Hpos; [lia|].
  destruct (execute_tool_calls_runs tm (content resp) [] None w)
    as (results & err & Hfor & _ & _).
  rewrite (tool_rounds_step _ _ _ _ _ _ _ _ _ _ _ _ Hfor eq_refl eq_refl).
  cbn [client calls tool_state executed].
  destruct (messages_create (client w) _) as [[r|x] c] eqn:Hcall.
  - cbn zeta. destruct (negb (String.eqb (stop_reason r) "tool_use")).
    + eexists. cbn. apply last_snoc.
    + destruct remaining as [|remaining].
      * eexists. cbn. apply last_snoc.
      * apply IH. lia.
  - eexists. cbn. apply last_snoc.
Qed.

(** What the loop leaves behind: it adds at most [remaining] backend calls
    to the log, only adds to the log of tool invocations, and when it ran no
    tool the tool state is the one it started from. *)
Lemma tool_rounds_frame tm bp remaining :
  forall rc msgs resp w,
  exists new extra,
    calls (snd (rounds tm bp remaining rc msgs resp w)) = calls w ++ new
    /\ (length new <= remaining)%nat
    /\ executed (snd (rounds tm bp remaining rc msgs resp w)) = executed w ++ extra
    /\ (extra = [] ->
        tool_state (snd (rounds tm bp remaining rc msgs resp w)) = tool_state w).
Proof.
  induction remaining as [|remaining IH]; intros rc msgs resp w.
  - exists [], []. cbn. rewrite !app_nil_r. auto.
  - destruct (execute_tool_calls_runs tm (content resp) [] None w)
      as (results & err & Hfor & _ & _).
    rewrite (tool_rounds_step _ _ _ _ _ _ _ _ _ _ _ _ Hfor eq_refl eq_refl).
    cbn [client calls tool_state executed].
    destruct (messages_create (client w) _) as [[r|x] c] eqn:Hcall.
    + cbn zeta. destruct (negb (String.eqb (stop_reason r) "tool_use")).
      * eexists [_], (tool_use_calls (content resp)). cbn.
        repeat split; [lia|]. intros H. apply tool_state_after_no_calls, H.
      * match goal with
        | |- context [rounds tm bp remaining ?rc' ?msgs' r ?w2] =>
            destruct (IH rc' msgs' r w2) as (new & extra & Hc & Hlen & He & Ht);
            set (R := rounds tm bp remaining rc' msgs' r w2) in *
        end.
        cbn [client calls tool_state executed] in Hc, He, Ht.
        eexists (_ :: new), (tool_use_calls (content resp) ++ extra).
        split; [rewrite Hc; symmetry; apply (app_assoc _ [_] new)|].
        split; [cbn; lia|].
        split; [rewrite He; symmetry; apply app_assoc|].
        intros H. apply app_eq_nil in H as [H1 H2].
        etrans; [exact (Ht H2)|]. apply tool_state_after_no_calls, H1.
    + eexists [_], (tool_use_calls (content resp)). cbn.
      repeat split; [lia|]. intros H. apply tool_state_after_no_calls, H.
Qed.


(** Against a backend whose every response asks for tools, the loop uses
    its whole budget, and its last call carries no catalog. *)
Lemma tool_rounds_always_tool_use tm bp :
  (forall c p, exists r c',
      messages_create c p = (Return r, c') /\ stop_reason r = "tool_use") ->
  forall remaining rc msgs resp w,
  (rc + remaining = MAX_TOOL_ROUNDS)%nat ->
  exists new,
    calls (snd (rounds tm bp remaining rc msgs resp w)) = calls w ++ new
    /\ length new = remaining
    /\ ((0 < remaining)%nat ->
        exists p o, last new = Some (p, o) /\ tools p = None).
Proof.
  intros Halways.
  induction remaining as [|remaining IH]; intros rc msgs resp w Hbudget.
  - exists []. cbn. rewrite app_nil_r. repeat split. lia.
  - destruct (execute_tool_calls_runs tm (content resp) [] None w)
      as (results & err & Hfor & _ & _).
    rewrite (tool_rounds_step _ _ _ _ _ _ _ _ _ _ _ _ Hfor eq_refl eq_refl).
    cbn [client calls tool_state executed].
    match goal with
    | |- context [messages_create (client w) ?p] =>
        destruct (Halways (client w) p) as (r & c & -> & Hstop); set (p0 := p)
    end.
    cbn zeta. rewrite Hstop. cbn [String.eqb Ascii.eqb Bool.eqb negb].
    match goal with
    | |- context [rounds tm bp remaining ?rc' ?msgs' r ?w2] =>
        destruct (IH rc' msgs' r w2 ltac:(lia)) as (new & Hc & Hlen & Hlast);
        set (R := rounds tm bp remaining rc' msgs' r w2) in *
    end.
    cbn [client calls tool_state executed] in Hc.
    exists ((p0, Return r) :: new).
    split; [rewrite Hc; symmetry; apply (app_assoc _ [_] new)|].
    split; [cbn; lia|]. intros _.
    destruct remaining as [|remaining].
    + destruct new; [|discriminate]. exists p0, (Return r). split; [reflexivity|].
      subst p0. cbn [tools make_params].
      replace (S rc <? MAX_TOOL_ROUNDS)%nat with false; [reflexivity|].
      symmetry. apply Nat.ltb_ge. lia.
    + destruct (Hlast ltac:(lia)) as (p & o & Hl & Hp).
      exists p, o. split; [|exact Hp].
      destruct new as [|x new]; [discriminate|]. exact Hl.
Qed.

(** C1.  Against a generation backend whose every response requests tool
    use, and with a tool manager at hand, [generate_response] issues exactly
    [MAX_TOOL_ROUNDS + 1] backend calls, whatever the catalog and the tool
    manager are, and the call at index [MAX_TOOL_ROUNDS], the last one, is
    made without the tool catalog.  The round budget is positive (it is 2 in
    the reference configuration). *)
Theorem max_rounds_enforced tm query history catalog w :
  (forall c p, exists r c',
      messages_create c p = (Return r, c') /\ stop_reason r = "tool_use") ->
  (0 < MAX_TOOL_ROUNDS)%nat ->
  exists new p,
    call_args_list
      (snd (generate_response messages_create self_model MAX_TOOL_ROUNDS
              query history catalog (Some tm) w))
    = call_args_list w ++ new
    /\ length new = (MAX_TOOL_ROUNDS + 1)%nat
    /\ new !! MAX_TOOL_ROUNDS = Some p
    /\ tools p = None.
Proof.
  intros Halways Hpos.
  unfold generate_response, bind at 1, create.
  match goal with
  | |- context [messages_create (client w) ?p] =>
      destruct (Halways (client w) p) as (r & c & -> & Hstop); set (p0 := p)
  end.
  rewrite Hstop. cbn [String.eqb Ascii.eqb Bool.eqb].
  unfold _handle_tool_execution, bind.
  match goal with
  | |- context [tool_rounds _ _ _ tm ?bp ?n ?rc ?msgs r ?w2] =>
      destruct (tool_rounds_always_tool_use tm bp Halways n rc msgs r w2 eq_refl)
        as (new & Hc & Hlen & Hlast);
      destruct (Hlast Hpos) as (p & o & Hl & Hp);
      destruct (tool_rounds messages_create self_model MAX_TOOL_ROUNDS
                  tm bp n rc msgs r w2) as [[final|x] w'] eqn:HR
  end; cbn [snd calls ret] in Hc |- *.
  all: exists (p0 :: new.*1), p; unfold call_args_list; rewrite Hc.
  all: rewrite !fmap_app; cbn [fmap list_fmap fst].
  all: split; [symmetry; apply (app_assoc _ [_])|].
  all: split; [cbn; rewrite length_fmap; lia|].
  all: split; [|exact Hp].
  all: rewrite last_lookup in Hl; rewrite Hlen in Hl.
  all: replace MAX_TOOL_ROUNDS with (S (Nat.pred MAX_TOOL_ROUNDS)) at 1 by lia.
  all: change (new.*1 !! Nat.pred MAX_TOOL_ROUNDS = Some p).
  all: rewrite list_lookup_fmap, Hl; reflexivity.
Qed.


(** Once tool rounds are entered, what [_handle_tool_execution] returns is
    decided by the last backend call alone. *)
Lemma handle_tool_execution_outcome initial bp tm w :
  (0 < MAX_TOOL_ROUNDS)%nat ->
  outcome_of_last_call
    (_handle_tool_execution messages_create self_model MAX_TOOL_ROUNDS initial bp tm w).
Proof.
  intros Hpos. unfold outcome_of_last_call, _handle_tool_execution, bind.
  destruct (tool_rounds_outcome tm bp MAX_TOOL_ROUNDS 0 (messages bp) initial w Hpos)
    as (p & Hlast).
  destruct (rounds tm bp MAX_TOOL_ROUNDS 0 (messages bp) initial w)
    as [[final|x] w'] eqn:HR; cbn [fst snd ret] in *.
  - exists p, (Return final). split; [exact Hlast|reflexivity].
  - exists p, (Raise x). split; [exact Hlast|reflexivity].
Qed.

(** A failing tool call, in front of any backend.  In every round of the
    tool loop, when the call of some requested tool raises, the exception is
    caught for that call alone: every other call of the round is still
    invoked, the failing call yields an entry tagged as an error that
    carries the failure text, and the next backend call omits the tool
    catalog.  When the backend answers that call without asking for tools,
    no further tool round takes place and the answer is returned.  Whatever
    the tools did, [generate_response] returns the text of the response to
    its last backend call, or fails with the exception that call raised: no
    exception of a tool reaches the caller. *)
Theorem tool_failure_isolated :
  (forall tm bp remaining rc msgs resp w pre id name input post e t',
      content resp = pre ++ ToolUseBlock id name input :: post ->
      tm (tool_state_after tm pre (tool_state w)) name input = (Raise e, t') ->
      isolates_failure messages_create self_model MAX_TOOL_ROUNDS
        tm bp remaining rc msgs resp w (length (tool_use_ids pre)) id e)
  /\ (forall tm query history catalog w r0 c0,
        (0 < MAX_TOOL_ROUNDS)%nat ->
        messages_create (client w)
          (make_params self_model [mkMessage "user" (Text query)]
             (system_content history)
             (if truthy_list catalog then catalog else None))
        = (Return r0, c0) ->
        stop_reason r0 = "tool_use" ->
        outcome_of_last_call
          (generate_response messages_create self_model MAX_TOOL_ROUNDS
             query history catalog (Some tm) w)).
Proof.
  split.
  - intros tm bp remaining rc msgs resp w pre id name input post e t' Hcontent Hraise.
    unfold isolates_failure. cbn zeta.
    destruct (execute_tool_calls_failing tm pre id name input post e t' [] None w Hraise)
      as (results & err & Hfor & Hids & Hentry).
    rewrite <- Hcontent in Hfor, Hids. cbn [app] in Hfor.
    destruct results as [|r0 rs]; [rewrite lookup_nil in Hentry; discriminate|].
    rewrite (tool_rounds_step _ _ _ _ _ _ _ _ _ _ _ _ Hfor eq_refl eq_refl).
    cbn [client calls tool_state executed].
    rewrite andb_false_r. cbn [andb].
    rewrite <- (app_assoc msgs [mkMessage "assistant" (Blocks (content resp))]
                 [mkMessage "user" (ToolResults (r0 :: rs))]).
    cbn [app].
    exists (r0 :: rs).
    exists (make_params self_model
              (msgs ++ [mkMessage "assistant" (Blocks (content resp));
                        mkMessage "user" (ToolResults (r0 :: rs))])
              (system bp) None).
    split; [exact Hids|]. split; [exact Hentry|].
    split; [reflexivity|]. split; [reflexivity|]. split; [reflexivity|].
    match goal with
    | |- context [messages_create (client w) ?p] =>
        destruct (messages_create (client w) p) as [[r|x] c] eqn:Hcall; set (p0 := p) in *
    end; cbn [fst].
    + cbn zeta.
      destruct (String.eqb (stop_reason r) "tool_use") eqn:Hstop; cbn [negb].
      * match goal with
        | |- context [rounds tm bp remaining ?rc' ?msgs' r ?w2] =>
            destruct (tool_rounds_frame tm bp remaining rc' msgs' r w2)
              as (new & extra & Hc & _ & He & _);
            set (R := rounds tm bp remaining rc' msgs' r w2) in *
        end.
        cbn [client calls tool_state executed] in Hc, He.
        exists extra, new.
        split; [rewrite He; symmetry; apply app_assoc|].
        split; [rewrite Hc; symmetry; apply (app_assoc _ [_] new)|].
        discriminate.
      * exists [], []. cbn [fst snd calls executed]. rewrite app_nil_r.
        split; [reflexivity|]. split; [reflexivity|]. auto.
    + exists [], []. cbn [fst snd calls executed]. rewrite app_nil_r. auto.
  - intros tm query history catalog w r0 c0 Hpos Hcall Hstop.
    unfold generate_response, bind at 1, create. rewrite Hcall, Hstop.
    cbn [String.eqb Ascii.eqb Bool.eqb].
    apply handle_tool_execution_outcome, Hpos.
Qed.



(** Every request of the loop carries the system text of the first request
    and extends the messages the loop was entered with. *)
Lemma tool_rounds_requests tm bp remaining :
  forall rc msgs resp w,
  exists new,
    calls (snd (rounds tm bp remaining rc msgs resp w)) = calls w ++ new
    /\ Forall (fun q => system q = system bp /\ msgs `prefix_of` messages q) new.*1.
Proof.
  induction remaining as [|remaining IH]; intros rc msgs resp w.
  - exists []. cbn. rewrite app_nil_r. split; [reflexivity|constructor].
  - destruct (execute_tool_calls_runs tm (content resp) [] None w)
      as (results & err & Hfor & _ & _).
    rewrite (tool_rounds_step _ _ _ _ _ _ _ _ _ _ _ _ Hfor eq_refl eq_refl).
    cbn [client calls tool_state executed app].
    set (msgs' := match results with
                  | [] => msgs ++ [mkMessage "assistant" (Blocks (content resp))]
                  | _ :: _ =>
                      (msgs ++ [mkMessage "assistant" (Blocks (content resp))])
                      ++ [mkMessage "user" (ToolResults results)]
                  end).
    assert (Hpre : msgs `prefix_of` msgs').
    { subst msgs'. destruct results.
      - eexists; reflexivity.
      - eexists. rewrite <- app_assoc. reflexivity. }
    match goal with
    | |- context [messages_create (client w) ?p] =>
        destruct (messages_create (client w) p) as [[r|x] c] eqn:Hcall; set (p0 := p) in *
    end.
    + cbn zeta. destruct (negb (String.eqb (stop_reason r) "tool_use")).
      * exists [(p0, Return r)]. split; [reflexivity|].
        repeat constructor. exact Hpre.
      * match goal with
        | |- context [rounds tm bp remaining ?rc' msgs' r ?w2] =>
            destruct (IH rc' msgs' r w2) as (new & Hc & Hall);
            set (R := rounds tm bp remaining rc' msgs' r w2) in *
        end.
        cbn [client calls tool_state executed] in Hc.
        exists ((p0, Return r) :: new).
        split; [rewrite Hc; symmetry; apply (app_assoc _ [_] new)|].
        cbn [fmap list_fmap fst]. constructor; [split; [reflexivity|exact Hpre]|].
        eapply Forall_impl; [exact Hall|].
        intros q [Hs Hp]. split; [exact Hs|]. etrans; [exact Hpre|exact Hp].
    + exists [(p0, Raise x)]. split; [reflexivity|].
      repeat constructor. exact Hpre.
Qed.

(** C7 (amended).  When a non-empty [conversation_history] is supplied,
    [generate_response] appends a section headed [Previous conversation:]
    that holds the history to the system text, and never to the user
    message: the first call's only message is the user message holding
    exactly the query, and every later call of the query starts with that
    message and carries the same system text.  When no history is supplied,
    or an empty one, the system text is the static prompt, in which no such
    section occurs. *)
Theorem history_goes_to_system query history catalog (tm : option (ToolManager Tools)) w :
  exists p rest,
    call_args_list
      (snd (generate_response messages_create self_model MAX_TOOL_ROUNDS
              query history catalog tm w))
    = call_args_list w ++ p :: rest
    /\ messages p = [mkMessage "user" (Text query)]
    /\ system p
       = match history with
         | Some (String a h) =>
             SYSTEM_PROMPT +:+ nl +:+ nl +:+ "Previous conversation:" +:+ nl
             +:+ String a h
         | _ => SYSTEM_PROMPT
         end
    /\ Forall (fun q => system q = system p
                        /\ head (messages q) = Some (mkMessage "user" (Text query)))
         rest
    /\ contains "Previous conversation" SYSTEM_PROMPT = false.
Proof.
  unfold generate_response, bind at 1, create.
  set (p0 := make_params self_model [mkMessage "user" (Text query)]
               (system_content history)
               (if truthy_list catalog then catalog else None)).
  assert (Hsys : system p0
                 = match history with
                   | Some (String a h) =>
                       SYSTEM_PROMPT +:+ nl +:+ nl +:+ "Previous conversation:" +:+ nl
                       +:+ String a h
                   | _ => SYSTEM_PROMPT
                   end).
  { destruct history as [[|a h]|]; reflexivity. }
  assert (Hone : forall (o : Outcome Response) (c : Client) (m : M Client Tools string),
             (forall w1, snd (m w1) = w1) ->
             exists rest,
               call_args_list
                 (snd (m (mkWorld c (tool_state w) (calls w ++ [(p0, o)]) (executed w))))
               = call_args_list w ++ p0 :: rest
               /\ Forall (fun q => system q = system p0
                                   /\ head (messages q)
                                      = Some (mkMessage "user" (Text query))) rest).
  { intros o c m Hm. exists []. rewrite Hm. unfold call_args_list. cbn [calls].
    rewrite fmap_app. split; [reflexivity|constructor]. }
  assert (Hdirect : forall r w1, snd (content_0_text (Client:=Client) (Tools:=Tools) r w1) = w1).
  { intros r w1. unfold content_0_text.
    destruct (content r) as [|b bs]; [reflexivity|].
    destruct (block_text b); reflexivity. }
  destruct (messages_create (client w) p0) as [[r|x] c] eqn:Hcall.
  - destruct (if String.eqb (stop_reason r) "tool_use" then tm else None) as [tm'|].
    + unfold _handle_tool_execution, bind.
      match goal with
      | |- context [tool_rounds _ _ _ tm' p0 ?n ?rc ?msgs r ?w2] =>
          destruct (tool_rounds_requests tm' p0 n rc msgs r w2) as (new & Hc & Hall);
          destruct (tool_rounds messages_create self_model MAX_TOOL_ROUNDS
                      tm' p0 n rc msgs r w2) as [[final|x] w'] eqn:HR
      end; cbn [snd calls ret messages make_params] in Hc, Hall |- *.
      all: exists p0, new.*1; unfold call_args_list; rewrite Hc, !fmap_app.
      all: split; [symmetry; apply (app_assoc _ [_])|].
      all: split; [reflexivity|]; split; [exact Hsys|]; split; [|reflexivity].
      all: eapply Forall_impl; [exact Hall|].
      all: intros q [Hs [k Hk]]; split; [exact Hs|]; rewrite Hk; reflexivity.
    + destruct (Hone (Return r) c (content_0_text r) (Hdirect r)) as (rest & Hc & Hall).
      exists p0, rest. repeat split; auto.
  - exists p0, []. unfold call_args_list. cbn [snd calls]. rewrite fmap_app.
    repeat split; auto.
Qed.

(** C10.  An empty [conversation_history] is treated as an absent one: the
    system text is the static prompt in both cases, and the whole run of
    [generate_response] is the same. *)
Theorem empty_history_as_absent query catalog (tm : option (ToolManager Tools)) w :
  system_content (Some "") = SYSTEM_PROMPT
  /\ system_content None = SYSTEM_PROMPT
  /\ generate_response messages_create self_model MAX_TOOL_ROUNDS
       query (Some "") catalog tm w
     = generate_response messages_create self_model MAX_TOOL_ROUNDS
         query None catalog tm w.
Proof. repeat split. Qed.

(** On the path without tool rounds the answer is [response.content[0].text]:
    one backend call, then the text of the first block when it has one. *)
Lemma direct_response query history catalog (tm : option (ToolManager Tools)) w r c :
  messages_create (client w)
    (make_params self_model [mkMessage "user" (Text query)]
       (system_content history)
       (if truthy_list catalog then catalog else None))
  = (Return r, c) ->
  String.eqb (stop_reason r) "tool_use" = false ->
  fst (generate_response messages_create self_model MAX_TOOL_ROUNDS
         query history catalog tm w)
  = match content r with
    | [] => Raise IndexError
    | block :: _ =>
        match block_text block with
        | Some t => Return t
        | None => Raise (AttributeError (block_class block) "text")
        end
    end
  /\ length (calls (snd (generate_response messages_create self_model MAX_TOOL_ROUNDS
                           query history catalog tm w)))
     = S (length (calls w)).
Proof.
  intros Hcall Hstop. unfold generate_response, bind, create.
  rewrite Hcall, Hstop. unfold content_0_text.
  destruct (content r) as [|b bs]; [|destruct (block_text b)];
    cbn; rewrite length_app; cbn; split; (reflexivity || lia).
Qed.


(** A query leaves the tool state alone unless it invokes a tool. *)
Lemma generate_response_frame query history catalog (tm : option (ToolManager Tools)) w o w' :
  generate_response messages_create self_model MAX_TOOL_ROUNDS
    query history catalog tm w = (o, w') ->
  exists extra,
    executed w' = executed w ++ extra
    /\ (extra = [] -> tool_state w' = tool_state w).
Proof.
  unfold generate_response, bind at 1, create.
  assert (Hdirect : forall r w1, snd (content_0_text (Client:=Client) (Tools:=Tools) r w1) = w1).
  { intros r w1. unfold content_0_text.
    destruct (content r) as [|b bs]; [reflexivity|].
    destruct (block_text b); reflexivity. }
  destruct (messages_create (client w) _) as [[r|x] c] eqn:Hcall.
  - destruct (if String.eqb (stop_reason r) "tool_use" then tm else None) as [tm'|].
    + unfold _handle_tool_execution, bind.
      match goal with
      | |- context [tool_rounds _ _ _ tm' ?bp ?n ?rc ?msgs r ?w2] =>
          destruct (tool_rounds_frame tm' bp n rc msgs r w2)
            as (new & extra & _ & _ & He & Ht);
          destruct (tool_rounds messages_create self_model MAX_TOOL_ROUNDS
                      tm' bp n rc msgs r w2) as [[final|x] w''] eqn:HR
      end; cbn [snd ret executed tool_state] in He, Ht |- *;
        intros [= <- <-]; exists extra; (split; [exact He|exact Ht]).
    + intros H. apply (f_equal snd) in H. rewrite Hdirect in H. cbn in H. subst w'.
      exists []. cbn. rewrite app_nil_r. auto.
  - intros [= <- <-]. exists []. cbn. rewrite app_nil_r. auto.
Qed.

(** X1.  Whatever the backend and the tools do, a query costs at least one
    and at most [MAX_TOOL_ROUNDS + 1] backend calls. *)
Theorem backend_calls_bounded query history catalog (tm : option (ToolManager Tools)) w :
  exists new,
    call_args_list
      (snd (generate_response messages_create self_model MAX_TOOL_ROUNDS
              query history catalog tm w))
    = call_args_list w ++ new
    /\ (1 <= length new <= MAX_TOOL_ROUNDS + 1)%nat.
Proof.
  unfold generate_response, bind at 1, create.
  assert (Hdirect : forall r w1, snd (content_0_text (Client:=Client) (Tools:=Tools) r w1) = w1).
  { intros r w1. unfold content_0_text.
    destruct (content r) as [|b bs]; [reflexivity|].
    destruct (block_text b); reflexivity. }
  destruct (messages_create (client w) _) as [[r|x] c] eqn:Hcall.
  - destruct (if String.eqb (stop_reason r) "tool_use" then tm else None) as [tm'|].
    + unfold _handle_tool_execution, bind.
      match goal with
      | |- context [tool_rounds _ _ _ tm' ?bp ?n ?rc ?msgs r ?w2] =>
          destruct (tool_rounds_frame tm' bp n rc msgs r w2)
            as (new & extra & Hc & Hlen & _ & _);
          destruct (tool_rounds messages_create self_model MAX_TOOL_ROUNDS
                      tm' bp n rc msgs r w2) as [[final|x] w'] eqn:HR
      end; cbn [snd ret calls] in Hc |- *.
      all: eexists (_ :: new.*1); unfold call_args_list; rewrite Hc, !fmap_app.
      all: (split; [symmetry; apply (app_assoc _ [_])|]).
      all: cbn [length]; rewrite length_fmap; lia.
    + rewrite Hdirect. eexists [_]. unfold call_args_list. cbn [calls].
      rewrite fmap_app. split; [reflexivity|cbn; lia].
  - eexists [_]. unfold call_args_list. cbn [snd calls].
    rewrite fmap_app. split; [reflexivity|cbn; lia].
Qed.

(** X2.  The [for] loop over the blocks of a response never raises and
    leaves the backend alone; it invokes every requested tool, in order, and
    produces one result entry per request, with the identifier of the
    request, in the same order. *)
Theorem tool_results_correlated tm blocks w :
  exists results err,
    execute_tool_calls tm blocks [] None w
    = (Return (results, err),
       mkWorld (client w) (tool_state_after tm blocks (tool_state w))
         (calls w) (executed w ++ tool_use_calls blocks))
    /\ map tool_use_id results = tool_use_ids blocks
    /\ length results = length (tool_use_calls blocks).
Proof.
  destruct (execute_tool_calls_runs tm blocks [] None w)
    as (results & err & Hrun & Hids & _).
  exists results, err. split; [exact Hrun|]. split; [exact Hids|].
  apply (f_equal length) in Hids. rewrite length_map in Hids. rewrite Hids.
  clear. induction blocks as [|b blocks IH]; [reflexivity|].
  destruct b; cbn; rewrite ?IH; reflexivity.
Qed.

(** X3.  Once tool rounds are entered, [_handle_tool_execution] returns
    the text found by [_extract_text_from_response] in the response to the
    last backend call, or fails with the exception that call raised. *)
Theorem text_after_tool_rounds initial bp tm w :
  (0 < MAX_TOOL_ROUNDS)%nat ->
  outcome_of_last_call
    (_handle_tool_execution messages_create self_model MAX_TOOL_ROUNDS initial bp tm w).
Proof. apply handle_tool_execution_outcome. Qed.

End Facts.

(** The run of [test_handle_tool_execution_returns_final_text]. *)
Lemma text_after_tool_rounds_witness :
  outcome_of_last_call
    (_handle_tool_execution side_effect "test-model" 2 asks_search
       (make_params "test-model" [mkMessage "user" (Text "Query")] "System prompt" None)
       (tool_returns "Tool output")
       (fresh [Return (text_response "Final answer")] tt)).
Proof.
  apply (text_after_tool_rounds _ side_effect unit "test-model" 2). lia.
Defined.

(** The run of [test_max_rounds_enforced], with a backend that never stops
    asking for tools. *)
Lemma max_rounds_enforced_witness :
  exists new p,
    call_args_list
      (snd (generate_response (return_value asks_search) "test-model" 2
              "Complex query" None (Some search_catalog)
              (Some (tool_returns "Result")) (fresh tt tt)))
    = call_args_list (fresh tt tt) ++ new
    /\ length new = (2 + 1)%nat
    /\ new !! 2%nat = Some p
    /\ tools p = None.
Proof.
  apply (max_rounds_enforced unit (return_value asks_search) unit "test-model" 2).
  - intros c p. exists asks_search, c. split; reflexivity.
  - lia.
Defined.


(** The run of [test_tool_execution_error_handled]: the only tool call of
    round 1 raises, the backend then answers in text. *)
Lemma tool_failure_isolated_witness :
  isolates_failure side_effect "test-model" 2 (tool_raises "Tool failed")
    (make_params "test-model" [mkMessage "user" (Text "Query")] SYSTEM_PROMPT
       (Some search_catalog))
    1 0 [mkMessage "user" (Text "Query")] asks_search
    (fresh [Return (text_response "Response after error")] tt)
    0 "t1" (mkException "Exception" "Tool failed")
  /\ outcome_of_last_call
       (generate_response side_effect "test-model" 2 "Query" None
          (Some search_catalog) (Some (tool_raises "Tool failed"))
          (fresh [Return asks_search; Return (text_response "Response after error")] tt)).
Proof.
  split.
  - apply (proj1 (tool_failure_isolated _ side_effect unit "test-model" 2)
             (tool_raises "Tool failed") _ 1%nat 0%nat _ asks_search _
             [] "t1" "search_course_content" [("query", JString "q1")] []
             (mkException "Exception" "Tool failed") tt); reflexivity.
  - apply (proj2 (tool_failure_isolated _ side_effect unit "test-model" 2)
             (tool_raises "Tool failed") "Query" None (Some search_catalog) _
             asks_search [Return (text_response "Response after error")]).
    + lia.
    + reflexivity.
    + reflexivity.
Defined.

(** The loop itself does not stop on a failure.  A backend that goes on
    asking for tools after the call without catalog gets a second tool
    round, although the tool call of round 1 raised: the tool is invoked
    twice, not once. *)
Lemma tool_round_after_failure :
  let G := generate_response (return_value asks_search) "test-model" 2
             "Query" None (Some search_catalog)
             (Some (tool_raises "Tool failed")) (fresh tt tt) in
  map tools (call_args_list (snd G)) = [Some search_catalog; None; None]
  /\ executed (snd G)
     = [("search_course_content", [("query", JString "q1")]);
        ("search_course_content", [("query", JString "q1")])]
  /\ executed (snd G) <> tool_use_calls (content asks_search).
Proof.
  cbv zeta. split; [vm_compute; reflexivity|].
  split; [vm_compute; reflexivity|]. vm_compute. discriminate.
Qed.

(** C3, the path without tool rounds: a response that ends the turn with no
    content block makes [generate_response] raise [IndexError], where the
    scan for the first block with text gives the empty text. *)
Lemma direct_path_raises_on_empty_content :
  let response := mkResponse "end_turn" [] in
  let G := generate_response side_effect "test-model" 2 "What is 2+2?" None None
             (@None (ToolManager unit)) (fresh [Return response] tt) in
  fst G = Raise IndexError
  /\ length (calls (snd G)) = 1%nat
  /\ _extract_text_from_response response = "".
Proof. cbv zeta. repeat split. Qed.

(** C3, the same path: a first block without text hides the text block
    behind it. *)
Lemma direct_path_raises_on_leading_block_without_text :
  let response := mkResponse "end_turn" [ThinkingBlock "plan"; TextBlock "4"] in
  let G := generate_response side_effect "test-model" 2 "What is 2+2?" None None
             (@None (ToolManager unit)) (fresh [Return response] tt) in
  fst G = Raise (AttributeError "ThinkingBlock" "text")
  /\ _extract_text_from_response response = "4".
Proof. cbv zeta. repeat split. Qed.

(** C7, as stated, fails: a history that is supplied but empty adds no
    section to the system text. *)
Lemma empty_history_adds_no_section :
  let G := generate_response (return_value (text_response "Response")) "test-model" 2
             "Question" (Some "") None (@None (ToolManager unit)) (fresh tt tt) in
  map (fun p => contains "Previous conversation" (system p)) (call_args_list (snd G))
  = [false].
Proof. vm_compute. reflexivity. Qed.

End AIGeneratorFacts.

Module SessionManagerFacts.
Import PyStr SessionManager.

Lemma trim_length max_history msgs :
  (length (trim max_history msgs) <= 2 * max_history)%nat.
Proof.
  unfold trim. destruct (2 * max_history <? length msgs)%nat eqn:H.
  - apply Nat.ltb_lt in H. rewrite length_drop. lia.
  - apply Nat.ltb_ge in H. exact H.
Qed.

Lemma trim_exact max_history msgs :
  (2 * max_history < length msgs)%nat ->
  length (trim max_history msgs) = (2 * max_history)%nat.
Proof.
  intros H. unfold trim. apply Nat.ltb_lt in H as H'. rewrite H'.
  rewrite length_drop. lia.
Qed.

Lemma trim_suffix max_history msgs : trim max_history msgs `suffix_of` msgs.
Proof.
  unfold trim. destruct (2 * max_history <? length msgs)%nat; [|reflexivity].
  apply suffix_drop.
Qed.

Lemma add_message_lookup sm session_id r text :
  sessions (add_message sm session_id r text) !! session_id
  = Some (trim (max_history sm)
            (default [] (sessions sm !! session_id) ++ [mkMessage r text])).
Proof. unfold add_message. cbn [sessions]. apply lookup_insert_eq. Qed.

Lemma add_message_max_history sm session_id r text :
  max_history (add_message sm session_id r text) = max_history sm.
Proof. reflexivity. Qed.

Lemma add_message_bounded sm session_id r text :
  bounded sm -> bounded (add_message sm session_id r text).
Proof.
  intros H. unfold bounded, add_message. cbn [sessions max_history].
  apply map_Forall_insert_2; [apply trim_length|exact H].
Qed.

Lemma step_bounded sm op : bounded sm -> bounded (step sm op).
Proof.
  intros H. destruct op as [|s r text|s u a|s]; cbn [step].
  - unfold bounded, create_session. cbn [snd sessions max_history].
    apply map_Forall_insert_2; [cbn; lia|exact H].
  - apply add_message_bounded, H.
  - unfold add_exchange. apply add_message_bounded, add_message_bounded, H.
  - unfold clear_session. destruct (sessions sm !! s); [|exact H].
    unfold bounded. cbn [sessions max_history].
    apply map_Forall_insert_2; [cbn; lia|exact H].
Qed.

Lemma step_max_history sm op : max_history (step sm op) = max_history sm.
Proof.
  destruct op; cbn [step]; try reflexivity.
  unfold clear_session. destruct (sessions sm !! _); reflexivity.
Qed.

Lemma run_bounded ops : forall sm, bounded sm -> bounded (run ops sm).
Proof.
  induction ops as [|op ops IH]; intros sm H; [exact H|].
  apply IH, step_bounded, H.
Qed.

Lemma run_max_history ops : forall sm, max_history (run ops sm) = max_history sm.
Proof.
  induction ops as [|op ops IH]; intros sm; [reflexivity|].
  cbn [run fold_left]. etrans; [apply IH|apply step_max_history].
Qed.

(** C5.  After every append the stored message count of the session is at
    most [2 * max_history], for [add_message] and for [add_exchange] and in
    every state a sequence of operations leads to; what is kept is a suffix
    of the messages in their order, of exactly [2 * max_history] messages
    when trimming took place.  With [max_history = 2], after the exchanges
    [(Q0, A0) ... (Q4, A4)] the history holds [Q3] and [A4] and neither [Q0]
    nor [Q1]. *)
Theorem history_is_bounded :
  (forall sm session_id r text,
      exists msgs,
        sessions (add_message sm session_id r text) !! session_id = Some msgs
        /\ (length msgs <= 2 * max_history sm)%nat
        /\ msgs `suffix_of` (default [] (sessions sm !! session_id) ++ [mkMessage r text])
        /\ ((2 * max_history sm
             < length (default [] (sessions sm !! session_id) ++ [mkMessage r text]))%nat ->
            length msgs = (2 * max_history sm)%nat))
  /\ (forall sm session_id user_text assistant_text,
        exists msgs,
          sessions (add_exchange sm session_id user_text assistant_text) !! session_id
          = Some msgs
          /\ (length msgs <= 2 * max_history sm)%nat
          /\ msgs `suffix_of`
               (default [] (sessions sm !! session_id)
                ++ [mkMessage user user_text; mkMessage assistant assistant_text]))
  /\ (forall max_history ops,
        map_Forall (fun _ msgs => (length msgs <= 2 * max_history)%nat)
          (sessions (run ops (new max_history))))
  /\ (exists history,
        get_conversation_history five_exchanges "session_1" = Some history
        /\ contains "Q3" history = true
        /\ contains "A4" history = true
        /\ contains "Q0" history = false
        /\ contains "Q1" history = false).
Proof.
  split; [|split; [|split]].
  - intros sm s r text. eexists. split; [apply add_message_lookup|].
    split; [apply trim_length|]. split; [apply trim_suffix|apply trim_exact].
  - intros sm s u a. unfold add_exchange. eexists.
    split; [apply add_message_lookup|]. rewrite add_message_lookup.
    cbn [default max_history add_message]. split; [apply trim_length|].
    etrans; [apply trim_suffix|].
    replace (default [] (sessions sm !! s) ++ [mkMessage user u; mkMessage assistant a])
      with ((default [] (sessions sm !! s) ++ [mkMessage user u]) ++ [mkMessage assistant a])
      by (rewrite <- app_assoc; reflexivity).
    apply suffix_app, trim_suffix.
  - intros n ops.
    pose proof (run_bounded ops (new n)) as H. unfold bounded in H.
    rewrite run_max_history in H. apply H.
    unfold new. cbn. apply map_Forall_empty.
  - eexists. split; [vm_compute; reflexivity|]. repeat split.
Qed.

(** A sixth user message on the session of the test: the session held four
    messages, trimming takes place and four remain. *)
Lemma history_is_bounded_witness :
  exists msgs,
    sessions (add_message five_exchanges "session_1" user "Q5") !! "session_1" = Some msgs
    /\ (length msgs <= 2 * 2)%nat
    /\ msgs `suffix_of`
         (default [] (sessions five_exchanges !! "session_1") ++ [mkMessage user "Q5"])
    /\ length msgs = (2 * 2)%nat.
Proof.
  destruct (proj1 history_is_bounded five_exchanges "session_1" user "Q5")
    as (msgs & Hlookup & Hbound & Hsuffix & Hexact).
  exists msgs. split; [exact Hlookup|]. split; [exact Hbound|].
  split; [exact Hsuffix|]. apply Hexact. vm_compute. lia.
Defined.

(** C9.  [get_conversation_history] is [None] exactly when the session is
    unknown or holds no message, and never the empty text; otherwise it is
    the stored messages, oldest first, each rendered as the capitalised
    role, a colon and the content, joined by line feeds. *)
Theorem history_is_none_or_rendered sm session_id :
  (get_conversation_history sm session_id = None
   <-> sessions sm !! session_id = None \/ sessions sm !! session_id = Some [])
  /\ (forall msgs,
        sessions sm !! session_id = Some msgs -> msgs <> [] ->
        get_conversation_history sm session_id = Some (join nl (map render msgs)))
  /\ get_conversation_history sm session_id <> Some ""
  /\ (forall text,
        render (mkMessage user text) = "User: " +:+ text
        /\ render (mkMessage assistant text) = "Assistant: " +:+ text).
Proof.
  unfold get_conversation_history.
  destruct (sessions sm !! session_id) as [[|m msgs]|] eqn:H.
  - split; [split; auto|]. split; [intros ms [= <-] Hne; congruence|].
    split; [discriminate|]. intros text; split; reflexivity.
  - split.
    { split; [discriminate|]. intros [?|?]; discriminate. }
    split; [intros ms [= <-] _; reflexivity|].
    split; [|intros text; split; reflexivity].
    intros [= Hjoin]. cbn [map join] in Hjoin.
    destruct m as [[] text]; destruct (map render msgs); discriminate.
  - split; [split; auto|]. split; [discriminate|].
    split; [discriminate|]. intros text; split; reflexivity.
Qed.

(** The history of the test session, rendered. *)
Lemma history_is_none_or_rendered_witness :
  get_conversation_history five_exchanges "session_1"
  = Some ("User: Q3" +:+ nl +:+ "Assistant: A3" +:+ nl
          +:+ "User: Q4" +:+ nl +:+ "Assistant: A4").
Proof.
  apply (proj1 (proj2 (history_is_none_or_rendered five_exchanges "session_1"))
           [mkMessage user "Q3"; mkMessage assistant "A3";
            mkMessage user "Q4"; mkMessage assistant "A4"]).
  - vm_compute. reflexivity.
  - discriminate.
Defined.

End SessionManagerFacts.

Module VectorStoreFacts.
Import VectorStore.

(** C8.  [_build_filter] gives no filter for no argument, the single
    equality filter on the course title or on the lesson number when one of
    them is given, and for both the conjunction that holds exactly the two
    equality conditions. *)
Theorem build_filter_cases (c : string) (n : Z) :
  _build_filter None None = None
  /\ _build_filter (Some c) None = Some (Single (CourseTitle c))
  /\ _build_filter None (Some n) = Some (Single (LessonNumber n))
  /\ exists conditions,
       _build_filter (Some c) (Some n) = Some (And conditions)
       /\ length conditions = 2%nat
       /\ CourseTitle c ∈ conditions
       /\ LessonNumber n ∈ conditions.
Proof.
  repeat split. exists [CourseTitle c; LessonNumber n].
  repeat split; set_solver.
Qed.

End VectorStoreFacts.

Module RAGSystemFacts.
Import AIGenerator ToolManager RAGSystem.

Lemma reset_sources_empties tm : buffers_empty (reset_sources tm).
Proof.
  unfold buffers_empty, reset_sources.
  induction tm as [|[n tool] tm IH]; constructor; [reflexivity|exact IH].
Qed.

Lemma get_last_sources_empty tm : buffers_empty tm -> get_last_sources tm = [].
Proof.
  unfold buffers_empty.
  induction 1 as [|[n tool] tm Hx _ IH]; [reflexivity|].
  cbn in *. rewrite Hx. exact IH.
Qed.

Lemma reset_sources_names tm : (reset_sources tm).*1 = tm.*1.
Proof.
  unfold reset_sources. induction tm as [|[n tool] tm IH]; [reflexivity|].
  cbn. f_equal. exact IH.
Qed.

Section Facts.

Variable Client : Type.
Variable messages_create : Client -> ApiParams -> Outcome Response * Client.
Variable self_model : string.
Variable MAX_TOOL_ROUNDS : nat.

Local Abbreviation query := (RAGSystem.query messages_create self_model MAX_TOOL_ROUNDS).

(** A query that completes leaves every citation buffer empty. *)
Lemma query_resets rag text session_id answer rag' :
  query rag text session_id = (Return answer, rag') ->
  buffers_empty (tool_state (world rag')).
Proof.
  unfold RAGSystem.query.
  destruct (generate_response _ _ _ _ _ _ _ _) as [[response|e] w1];
    intros [= <- <-]. cbn. apply reset_sources_empties.
Qed.


End Facts.


End RAGSystemFacts.

(** ** Further properties of [backend/ai_generator.py] *)

Module AIGeneratorCoverage.
Import PyStr AIGenerator AIGeneratorFacts.

Section Coverage.

Variable Client : Type.
Variable messages_create : Client -> ApiParams -> Outcome Response * Client.
Variable Tools : Type.
Variable self_model : string.
Variable MAX_TOOL_ROUNDS : nat.

Implicit Types (tm : ToolManager Tools) (w : World Client Tools).
Implicit Types (blocks pre post : list ContentBlock) (resp : Response).

Local Abbreviation rounds := (tool_rounds messages_create self_model MAX_TOOL_ROUNDS).
Local Abbreviation generate :=
  (generate_response messages_create self_model MAX_TOOL_ROUNDS).

Lemma content_0_text_world (r : Response) w :
  snd (content_0_text r w) = w.
Proof.
  unfold content_0_text. destruct (content r) as [|b bs]; [reflexivity|].
  destruct (block_text b); reflexivity.
Qed.

(** The calls of the loop: all but the last were answered with a request
    for tools, the last one decides the outcome, the tools invoked are those
    the response at hand and these answers asked for, and the loop stops on
    an answer that asks for tools only when its budget is used up. *)
Lemma tool_rounds_trace tm bp remaining :
  forall rc msgs resp w,
  (0 < remaining)%nat ->
  exists init p o,
    calls (snd (rounds tm bp remaining rc msgs resp w)) = calls w ++ init ++ [(p, o)]
    /\ Forall asked_for_tools init
    /\ fst (rounds tm bp remaining rc msgs resp w) = o
    /\ executed (snd (rounds tm bp remaining rc msgs resp w))
       = executed w ++ tool_use_calls (content resp) ++ concat (map requested_calls init)
    /\ (length init < remaining)%nat
    /\ (forall r, o = Return r -> stop_reason r = "tool_use" ->
        S (length init) = remaining).
Proof.
  induction remaining as [|remaining IH]; intros rc msgs resp w Hpos; [lia|].
  destruct (execute_tool_calls_runs _ _ tm (content resp) [] None w)
    as (results & err & Hfor & _ & _).
  rewrite (tool_rounds_step _ _ _ _ _ _ _ _ _ _ _ _ _ _ _ _ _ Hfor eq_refl eq_refl).
  cbn [client calls tool_state executed].
  match goal with
  | |- context [messages_create (client w) ?p] =>
      destruct (messages_create (client w) p) as [[r|x] c] eqn:Hcall; set (p0 := p) in *
  end.
  - cbn zeta. destruct (String.eqb (stop_reason r) "tool_use") eqn:Hstop; cbn [negb].
    + apply String.eqb_eq in Hstop.
      destruct remaining as [|remaining].
      * exists [], p0, (Return r). cbn. rewrite !app_nil_r.
        repeat split; auto.
      * match goal with
        | |- context [rounds tm bp (S remaining) ?rc' ?msgs' r ?w2] =>
            destruct (IH rc' msgs' r w2 ltac:(lia))
              as (init & p & o & Hc & Hall & Ho & He & Hlen & Hlast);
            set (R := rounds tm bp (S remaining) rc' msgs' r w2) in *
        end.
        cbn [client calls tool_state executed] in Hc, He.
        exists ((p0, Return r) :: init), p, o.
        split; [rewrite Hc; symmetry; apply (app_assoc _ [_])|].
        split; [constructor; [exists r; auto|exact Hall]|].
        split; [exact Ho|].
        split; [rewrite He; cbn [map concat requested_calls snd];
                rewrite <- !app_assoc; reflexivity|].
        split; [cbn; lia|].
        intros r' Hr' Hs. cbn. f_equal. eapply Hlast; eauto.
    + exists [], p0, (Return r). cbn. rewrite !app_nil_r.
      repeat split; auto; try lia.
      intros r' [= <-] Hs. rewrite Hs in Hstop. discriminate.
  - exists [], p0, (Raise x). cbn. rewrite !app_nil_r.
    repeat split; auto; try lia. discriminate.
Qed.


(** The calls of a whole query, and what its outcome is made of. *)
Lemma generate_response_trace query history catalog (tm : option (ToolManager Tools))
    w G_o G_w :
  generate query history catalog tm w = (G_o, G_w) ->
  exists init p o,
    calls G_w = calls w ++ init ++ [(p, o)]
    /\ Forall asked_for_tools init
    /\ executed G_w = executed w ++ concat (map requested_calls init)
    /\ (length init <= MAX_TOOL_ROUNDS)%nat
    /\ (init <> [] -> is_Some tm)
    /\ G_o = match o with
             | Raise x => Raise x
             | Return r =>
                 match tm, init with
                 | None, _ => fst (content_0_text r G_w)
                 | Some _, [] =>
                     if String.eqb (stop_reason r) "tool_use"
                     then Return (_extract_text_from_response r)
                     else fst (content_0_text r G_w)
                 | Some _, _ :: _ => Return (_extract_text_from_response r)
                 end
             end.
Proof.
  unfold generate_response, bind at 1, create.
  match goal with
  | |- context [messages_create (client w) ?p] =>
      destruct (messages_create (client w) p) as [[r0|x] c] eqn:Hcall; set (p0 := p) in *
  end.
  - destruct tm as [tm'|].
    + destruct (String.eqb (stop_reason r0) "tool_use") eqn:Hstop.
      * apply String.eqb_eq in Hstop as Hstop'.
        unfold _handle_tool_execution, bind.
        destruct MAX_TOOL_ROUNDS as [|n] eqn:HM.
        -- cbn [tool_rounds ret]. intros [= <- <-].
           exists [], p0, (Return r0). cbn [calls executed app map concat length].
           rewrite app_nil_r, Hstop. repeat split; auto; try lia; try congruence.
        -- match goal with
           | |- context [tool_rounds _ _ _ tm' ?bp ?k ?rc ?msgs r0 ?w2] =>
               destruct (tool_rounds_trace tm' bp k rc msgs r0 w2)
                 as (init & p & o & Hc & Hall & Ho & He & Hlen & _); [lia|];
               rewrite HM in Hc, Ho, He;
               destruct (tool_rounds messages_create self_model (S n)
                           tm' bp k rc msgs r0 w2) as [R_o R_w] eqn:HR
           end.
           cbn [fst snd client calls tool_state executed] in Hc, Ho, He. subst R_o.
           intros HG.
           assert (HGw : G_w = R_w) by (destruct o; injection HG; auto).
           subst G_w.
           exists ((p0, Return r0) :: init), p, o.
           split; [rewrite Hc; symmetry; apply (app_assoc _ [_])|].
           split; [constructor; [exists r0; auto|exact Hall]|].
           split; [rewrite He; cbn [map concat requested_calls snd]; reflexivity|].
           split; [cbn; lia|].
           split; [eauto|].
           destruct o; injection HG; auto.
      * intros HG. assert (HGw : G_w = mkWorld c (tool_state w) (calls w ++ [(p0, Return r0)]) (executed w)).
        { apply (f_equal snd) in HG. rewrite content_0_text_world in HG. auto. }
        exists [], p0, (Return r0). rewrite HGw at 1 2. cbn [calls executed app map concat length].
        rewrite app_nil_r, Hstop. repeat split; auto; try lia; try congruence.
        apply (f_equal fst) in HG. cbn [fst] in HG. rewrite <- HG.
        unfold content_0_text. destruct (content r0) as [|b bs]; [reflexivity|].
        destruct (block_text b); reflexivity.
    + rewrite (Tauto.if_same (String.eqb (stop_reason r0) "tool_use") None).
      intros HG. assert (HGw : G_w = mkWorld c (tool_state w) (calls w ++ [(p0, Return r0)]) (executed w)).
      { apply (f_equal snd) in HG. rewrite content_0_text_world in HG. auto. }
      exists [], p0, (Return r0). rewrite HGw at 1 2. cbn [calls executed app map concat length].
      rewrite app_nil_r. repeat split; auto; try lia; try congruence.
      apply (f_equal fst) in HG. cbn [fst] in HG. rewrite <- HG.
      unfold content_0_text. destruct (content r0) as [|b bs]; [reflexivity|].
      destruct (block_text b); reflexivity.
  - intros [= <- <-]. exists [], p0, (Raise x). cbn [calls executed app map concat length].
    rewrite app_nil_r. repeat split; auto; try lia; try congruence.
Qed.


Lemma content_0_text_raises (r : Response) w e :
  fst (content_0_text r w) = Raise e
  <-> (content r = [] /\ e = IndexError
       \/ exists b bs, content r = b :: bs /\ block_text b = None
                       /\ e = AttributeError (block_class b) "text").
Proof.
  unfold content_0_text. destruct (content r) as [|b bs].
  - cbn. split.
    + intros [= <-]. left. auto.
    + intros [[_ ->]|(b & bs & H & _)]; [reflexivity|discriminate].
  - destruct (block_text b) as [t|] eqn:Hb; cbn.
    + split; [discriminate|].
      intros [[H _]|(b' & bs' & [= <- <-] & Hn & _)]; congruence.
    + split.
      * intros [= <-]. right. exists b, bs. auto.
      * intros [[H _]|(b' & bs' & [= <- <-] & _ & ->)]; [discriminate|reflexivity].
Qed.

(** X4.  Tools run only when asked for, and all that were asked for run:
    every backend call of a query but the last was answered by a request
    for tools, there are at most [MAX_TOOL_ROUNDS] such calls and none
    without a tool manager, and the tool invocations of the query are
    exactly the requests of these answers, in order. *)
Theorem tools_run_as_requested query history catalog (tm : option (ToolManager Tools)) w :
  exists init p o,
    calls (snd (generate query history catalog tm w)) = calls w ++ init ++ [(p, o)]
    /\ Forall asked_for_tools init
    /\ executed (snd (generate query history catalog tm w))
       = executed w ++ concat (map requested_calls init)
    /\ (length init <= MAX_TOOL_ROUNDS)%nat
    /\ (tm = None -> init = []).
Proof.
  destruct (generate query history catalog tm w) as [G_o G_w] eqn:HG.
  destruct (generate_response_trace _ _ _ _ _ _ _ HG)
    as (init & p & o & Hc & Hall & He & Hlen & Htm & _).
  exists init, p, o. cbn [snd]. repeat split; auto.
  intros ->. destruct init; [reflexivity|].
  destruct Htm as [? ?]; [discriminate|discriminate].
Qed.

(** X5.  The failures of [generate_response].  It raises [e] exactly when
    its last backend call raised [e], or when no tool round was entered and
    [response.content[0].text] fails: with [IndexError] on a response
    without blocks, with [AttributeError] on a first block without text.
    No call before the last one failed. *)
Theorem failures_of_generate_response query history catalog
    (tm : option (ToolManager Tools)) w :
  exists init p o,
    calls (snd (generate query history catalog tm w)) = calls w ++ init ++ [(p, o)]
    /\ Forall asked_for_tools init
    /\ forall e,
         fst (generate query history catalog tm w) = Raise e
         <-> (o = Raise e
              \/ exists r,
                   o = Return r /\ init = []
                   /\ (tm = None \/ stop_reason r <> "tool_use")
                   /\ (content r = [] /\ e = IndexError
                       \/ exists b bs, content r = b :: bs /\ block_text b = None
                                       /\ e = AttributeError (block_class b) "text")).
Proof.
  destruct (generate query history catalog tm w) as [G_o G_w] eqn:HG.
  destruct (generate_response_trace _ _ _ _ _ _ _ HG)
    as (init & p & o & Hc & Hall & He & Hlen & Htm & Ho).
  exists init, p, o. cbn [fst snd]. split; [exact Hc|]. split; [exact Hall|].
  intros e. subst G_o. destruct o as [r|x].
  - destruct tm as [tm'|].
    + destruct init as [|c0 init].
      * destruct (String.eqb (stop_reason r) "tool_use") eqn:Hstop.
        -- apply String.eqb_eq in Hstop. split; [discriminate|].
           intros [H|(r' & [= <-] & _ & [H|H] & _)]; congruence.
        -- apply String.eqb_neq in Hstop. rewrite content_0_text_raises. split.
           ++ intros H. right. exists r. auto.
           ++ intros [H|(r' & [= <-] & _ & _ & H)]; [discriminate|exact H].
      * split; [discriminate|].
        intros [H|(r' & _ & H & _)]; discriminate.
    + assert (init = []) as ->.
      { destruct init; [reflexivity|]. destruct Htm as [? ?]; discriminate. }
      rewrite content_0_text_raises. split.
      * intros H. right. exists r. auto.
      * intros [H|(r' & [= <-] & _ & _ & H)]; [discriminate|exact H].
  - split.
    + intros [= <-]. left. reflexivity.
    + intros [[= <-]|(r' & H & _)]; [reflexivity|discriminate].
Qed.

(** X6.  Without a tool manager a request for tools is never acted on: the
    query makes one backend call, invokes no tool and leaves the tool state
    alone, and a response that opens with a tool-use block makes it raise
    [AttributeError], since [response.content[0]] has no text. *)
Theorem without_tool_manager query history catalog w :
  exists p o,
    calls (snd (generate query history catalog None w)) = calls w ++ [(p, o)]
    /\ executed (snd (generate query history catalog None w)) = executed w
    /\ tool_state (snd (generate query history catalog None w)) = tool_state w
    /\ forall reason id name input rest,
         o = Return (mkResponse reason (ToolUseBlock id name input :: rest)) ->
         fst (generate query history catalog None w)
         = Raise (AttributeError "ToolUseBlock" "text").
Proof.
  destruct (generate query history catalog None w) as [G_o G_w] eqn:HG.
  destruct (generate_response_trace _ _ _ _ _ _ _ HG)
    as (init & p & o & Hc & Hall & He & Hlen & Htm & Ho).
  assert (init = []) as ->.
  { destruct init; [reflexivity|]. destruct Htm as [? ?]; discriminate. }
  destruct (generate_response_frame _ _ _ _ _ _ _ _ _ _ _ _ HG) as (extra & He' & Ht).
  exists p, o. cbn [fst snd]. cbn in He. rewrite app_nil_r in He.
  split; [exact Hc|]. split; [exact He|].
  split.
  { apply Ht. rewrite He in He' at 1.
    apply (f_equal length) in He'. rewrite length_app in He'.
    destruct extra; [reflexivity|cbn in He'; lia]. }
  intros reason id name input rest ->. rewrite Ho. reflexivity.
Qed.

(** X8.  With a round budget of zero a request for tools is answered
    without running any: one backend call, no tool invoked, and, with a tool
    manager at hand, the text scanned from that one response is returned. *)
Theorem zero_budget_runs_no_tool query history catalog tm w :
  MAX_TOOL_ROUNDS = 0%nat ->
  exists p o,
    calls (snd (generate query history catalog (Some tm) w)) = calls w ++ [(p, o)]
    /\ executed (snd (generate query history catalog (Some tm) w)) = executed w
    /\ forall r,
         o = Return r -> stop_reason r = "tool_use" ->
         fst (generate query history catalog (Some tm) w)
         = Return (_extract_text_from_response r).
Proof.
  intros Hzero.
  destruct (generate query history catalog (Some tm) w) as [G_o G_w] eqn:HG.
  destruct (generate_response_trace _ _ _ _ _ _ _ HG)
    as (init & p & o & Hc & Hall & He & Hlen & Htm & Ho).
  assert (init = []) as ->.
  { destruct init; [reflexivity|]. cbn in Hlen. lia. }
  exists p, o. cbn [fst snd]. cbn in He. rewrite app_nil_r in He.
  split; [exact Hc|]. split; [exact He|].
  intros r -> Hstop. rewrite Ho, Hstop. reflexivity.
Qed.

(** X9.  [_extract_text_from_response] skips the blocks without text: it
    gives the text of the first block that has one, the empty text when no
    block has, and agrees with [response.content[0].text] whenever that
    succeeds. *)
Theorem extract_text_skips_blocks_without_text :
  (forall reason pre t post,
      Forall (fun b => block_text b = None) pre ->
      _extract_text_from_response (mkResponse reason (pre ++ TextBlock t :: post)) = t)
  /\ (forall reason blocks,
        Forall (fun b => block_text b = None) blocks ->
        _extract_text_from_response (mkResponse reason blocks) = "")
  /\ (forall (r : Response) w t,
        fst (content_0_text r w) = Return t ->
        _extract_text_from_response r = t).
Proof.
  unfold _extract_text_from_response. cbn [content]. split; [|split].
  - intros _ pre t post H. induction H as [|b pre Hb _ IH]; [reflexivity|].
    cbn. rewrite Hb. exact IH.
  - intros _ blocks H. induction H as [|b blocks Hb _ IH]; [reflexivity|].
    cbn. rewrite Hb. exact IH.
  - intros r w t. unfold content_0_text.
    destruct (content r) as [|b bs]; [discriminate|].
    cbn. destruct (block_text b); [|discriminate]. intros [= <-]. reflexivity.
Qed.


(** What every request of a query carries, given the catalog [cat] of its
    first request. *)
Local Abbreviation well_formed cat sys :=
  (fun q : ApiParams =>
     model q = self_model /\ temperature q = 0%Z /\ max_tokens q = 800%Z
     /\ system q = sys
     /\ (tools q = None /\ tool_choice q = None
         \/ truthy_list cat = true /\ tools q = cat /\ tool_choice q = Some "auto")).

Lemma make_params_well_formed msgs sys (cat : option (list ToolDefinition)) (b : bool) :
  well_formed cat sys
    (make_params self_model msgs sys (if b && truthy_list cat then cat else None)).
Proof.
  repeat split.
  destruct b; cbn [andb]; [|left; split; reflexivity].
  destruct cat as [[|d ds]|]; cbn; [left|right|left]; repeat split.
Qed.

Lemma tool_rounds_parameters tm bp remaining :
  forall rc msgs resp w,
  exists new,
    calls (snd (rounds tm bp remaining rc msgs resp w)) = calls w ++ new
    /\ Forall (well_formed (tools bp) (system bp)) new.*1.
Proof.
  induction remaining as [|remaining IH]; intros rc msgs resp w.
  - exists []. cbn. rewrite app_nil_r. split; [reflexivity|constructor].
  - destruct (execute_tool_calls_runs _ _ tm (content resp) [] None w)
      as (results & err & Hfor & _ & _).
    rewrite (tool_rounds_step _ _ _ _ _ _ _ _ _ _ _ _ _ _ _ _ _ Hfor eq_refl eq_refl).
    cbn [client calls tool_state executed].
    match goal with
    | |- context [messages_create (client w)
                    (make_params self_model ?m (system bp)
                       (if ?b && truthy_list (tools bp) then tools bp else None))] =>
        pose proof (make_params_well_formed m (system bp) (tools bp) b) as Hwf;
        destruct (messages_create (client w)
                    (make_params self_model m (system bp)
                       (if b && truthy_list (tools bp) then tools bp else None)))
          as [[r|x] c] eqn:Hcall;
        set (p0 := make_params self_model m (system bp)
                     (if b && truthy_list (tools bp) then tools bp else None)) in *
    end.
    + cbn zeta. destruct (negb (String.eqb (stop_reason r) "tool_use")).
      * exists [(p0, Return r)]. split; [reflexivity|]. constructor; [exact Hwf|constructor].
      * match goal with
        | |- context [rounds tm bp remaining ?rc' ?msgs' r ?w2] =>
            destruct (IH rc' msgs' r w2) as (new & Hc & Hall);
            set (R := rounds tm bp remaining rc' msgs' r w2) in *
        end.
        cbn [client calls tool_state executed] in Hc.
        exists ((p0, Return r) :: new).
        split; [rewrite Hc; symmetry; apply (app_assoc _ [_] new)|].
        cbn [fmap list_fmap fst]. constructor; [exact Hwf|exact Hall].
    + exists [(p0, Raise x)]. split; [reflexivity|]. constructor; [exact Hwf|constructor].
Qed.

(** X7.  Every backend request of a query carries the model of the
    generator, temperature 0, at most 800 output tokens and one and the same
    system text; it carries either no catalog and no tool choice, or the
    catalog as it was supplied, which is then not empty, with the automatic
    tool choice. *)
Theorem requests_are_well_formed query history catalog (tm : option (ToolManager Tools)) w :
  exists new,
    call_args_list (snd (generate query history catalog tm w)) = call_args_list w ++ new
    /\ Forall (well_formed catalog (system_content history)) new.
Proof.
  unfold generate_response, bind at 1, create.
  pose proof (make_params_well_formed [mkMessage "user" (Text query)]
                (system_content history) catalog true) as Hwf.
  cbn [andb] in Hwf.
  set (p0 := make_params self_model [mkMessage "user" (Text query)]
               (system_content history)
               (if truthy_list catalog then catalog else None)) in *.
  assert (Hbp : forall q, well_formed (tools p0) (system p0) q ->
                          well_formed catalog (system_content history) q).
  { intros q (Hm & Ht & Hk & Hs & Hc). repeat split; auto.
    destruct Hc as [Hc|(Htr & Hq & Hch)]; [left; exact Hc|].
    subst p0. cbn [tools make_params] in Htr, Hq.
    destruct (truthy_list catalog) eqn:Hcat; [right; auto|discriminate]. }
  destruct (messages_create (client w) p0) as [[r|x] c] eqn:Hcall.
  - destruct (if String.eqb (stop_reason r) "tool_use" then tm else None) as [tm'|].
    + unfold _handle_tool_execution, bind.
      match goal with
      | |- context [tool_rounds _ _ _ tm' p0 ?n ?rc ?msgs r ?w2] =>
          destruct (tool_rounds_parameters tm' p0 n rc msgs r w2) as (new & Hc & Hall);
          destruct (tool_rounds messages_create self_model MAX_TOOL_ROUNDS
                      tm' p0 n rc msgs r w2) as [[final|x] w'] eqn:HR
      end; cbn [snd calls ret] in Hc |- *.
      all: exists (p0 :: new.*1); unfold call_args_list; rewrite Hc, !fmap_app.
      all: (split; [symmetry; apply (app_assoc _ [_])|]).
      all: constructor; [exact Hwf|].
      all: eapply Forall_impl; [exact Hall|exact Hbp].
    + rewrite content_0_text_world. exists [p0]. unfold call_args_list. cbn [calls].
      rewrite fmap_app. split; [reflexivity|]. constructor; [exact Hwf|constructor].
  - exists [p0]. unfold call_args_list. cbn [snd calls].
    rewrite fmap_app. split; [reflexivity|]. constructor; [exact Hwf|constructor].
Qed.


(** The error flag of the [for] loop is raised exactly when an entry is
    tagged as an error. *)
Lemma execute_tool_calls_flag tm blocks :
  forall acc err w,
  exists results err',
    execute_tool_calls tm blocks acc err w
    = (Return (acc ++ results, err'),
       mkWorld (client w) (tool_state_after tm blocks (tool_state w))
         (calls w) (executed w ++ tool_use_calls blocks))
    /\ map tool_use_id results = tool_use_ids blocks
    /\ match err' with None => true | Some _ => false end
       = match err with None => true | Some _ => false end
         && forallb (fun e => negb (is_error e)) results.
Proof.
  induction blocks as [|b blocks IH]; intros acc err w.
  - exists [], err. cbn. rewrite !app_nil_r, andb_true_r. destruct w; auto.
  - destruct b as [text|id name input|th]; cbn [execute_tool_calls tool_state_after
                                                   tool_use_calls tool_use_ids].
    + apply IH.
    + unfold bind, try_execute_tool.
      destruct (tm (tool_state w) name input) as [[result|e] t'] eqn:E; cbn [snd].
      * destruct (IH (acc ++ [mkToolResult id result false]) err
                    (mkWorld (client w) t' (calls w) (executed w ++ [(name, input)])))
          as (results & err' & Hrun & Hids & Hflag).
        exists (mkToolResult id result false :: results), err'.
        rewrite Hrun. cbn [client tool_state calls executed].
        rewrite <- !app_assoc. cbn.
        split; [reflexivity|]. split; [f_equal; exact Hids|exact Hflag].
      * destruct (IH (acc ++ [mkToolResult id ("Tool execution error: " +:+ exc_str e) true])
                    (Some e)
                    (mkWorld (client w) t' (calls w) (executed w ++ [(name, input)])))
          as (results & err' & Hrun & Hids & Hflag).
        exists (mkToolResult id ("Tool execution error: " +:+ exc_str e) true :: results), err'.
        rewrite Hrun. cbn [client tool_state calls executed].
        rewrite <- !app_assoc. cbn.
        split; [reflexivity|]. split; [f_equal; exact Hids|].
        rewrite Hflag. cbn. rewrite andb_false_r. reflexivity.
    + apply IH.
Qed.

(** X10.  The request that follows a round.  Its messages are those of the
    round, then the blocks of the response at hand as the assistant turn,
    then, unless the response held no tool call, one user message with a
    result per call; it carries the catalog of the first request exactly
    when the round count stays below the budget, no result of the round is
    tagged as an error, and that catalog is not empty. *)
Theorem request_after_round tm bp remaining rc msgs resp w :
  exists results p o rest,
    calls (snd (rounds tm bp (S remaining) rc msgs resp w)) = calls w ++ (p, o) :: rest
    /\ map tool_use_id results = tool_use_ids (content resp)
    /\ messages p
       = msgs ++ mkMessage "assistant" (Blocks (content resp))
                 :: match results with
                    | [] => []
                    | _ :: _ => [mkMessage "user" (ToolResults results)]
                    end
    /\ tools p
       = if (S rc <? MAX_TOOL_ROUNDS)%nat
            && forallb (fun e => negb (is_error e)) results
            && truthy_list (tools bp)
         then tools bp else None.
Proof.
  destruct (execute_tool_calls_flag tm (content resp) [] None w)
    as (results & err & Hfor & Hids & Hflag).
  cbn [app andb] in Hfor, Hflag.
  rewrite (tool_rounds_step _ _ _ _ _ _ _ _ _ _ _ _ _ _ _ _ _ Hfor eq_refl eq_refl).
  cbn [client calls tool_state executed]. rewrite Hflag.
  match goal with
  | |- context [messages_create (client w) ?p] => set (p0 := p)
  end.
  assert (Hmsgs : messages p0
                  = msgs ++ mkMessage "assistant" (Blocks (content resp))
                            :: match results with
                               | [] => []
                               | _ :: _ => [mkMessage "user" (ToolResults results)]
                               end).
  { subst p0. cbn [messages make_params]. destruct results; [reflexivity|].
    rewrite <- app_assoc. reflexivity. }
  destruct (messages_create (client w) p0) as [[r|x] c] eqn:Hcall.
  - cbn zeta. destruct (negb (String.eqb (stop_reason r) "tool_use")).
    + exists results, p0, (Return r), []. repeat split; auto.
    + match goal with
      | |- context [rounds tm bp remaining ?rc' ?msgs' r ?w2] =>
          destruct (tool_rounds_frame _ messages_create _ self_model MAX_TOOL_ROUNDS
                      tm bp remaining rc' msgs' r w2)
            as (new & extra & Hc & _);
          set (R := rounds tm bp remaining rc' msgs' r w2) in *
      end.
      cbn [client calls tool_state executed] in Hc.
      exists results, p0, (Return r), new.
      split; [rewrite Hc; symmetry; apply (app_assoc _ [_] new)|].
      repeat split; auto.
  - exists results, p0, (Raise x), []. repeat split; auto.
Qed.

Lemma tool_rounds_chained tm bp remaining :
  forall rc msgs resp w prev,
  snd prev = Return resp ->
  messages (fst prev) = msgs ->
  exists new,
    calls (snd (rounds tm bp remaining rc msgs resp w)) = calls w ++ new
    /\ chained prev new.
Proof.
  induction remaining as [|remaining IH]; intros rc msgs resp w prev Hprev Hmsgs.
  - exists []. cbn. rewrite app_nil_r. auto.
  - destruct (execute_tool_calls_runs _ _ tm (content resp) [] None w)
      as (results & err & Hfor & Hids & _).
    cbn [app] in Hfor.
    rewrite (tool_rounds_step _ _ _ _ _ _ _ _ _ _ _ _ _ _ _ _ _ Hfor eq_refl eq_refl).
    cbn [client calls tool_state executed].
    set (msgs' := match results with
                  | [] => msgs ++ [mkMessage "assistant" (Blocks (content resp))]
                  | _ :: _ =>
                      (msgs ++ [mkMessage "assistant" (Blocks (content resp))])
                      ++ [mkMessage "user" (ToolResults results)]
                  end).
    match goal with
    | |- context [messages_create (client w) ?p] => set (p0 := p)
    end.
    assert (Hcont : forall o, continues prev (p0, o)).
    { intros o. exists resp, results. split; [exact Hprev|]. split; [exact Hids|].
      subst p0 msgs'. cbn [fst messages make_params]. rewrite Hmsgs.
      destruct results; [reflexivity|]. rewrite <- app_assoc. reflexivity. }
    destruct (messages_create (client w) p0) as [[r|x] c] eqn:Hcall.
    + cbn zeta. destruct (negb (String.eqb (stop_reason r) "tool_use")).
      * exists [(p0, Return r)]. split; [reflexivity|]. cbn. auto.
      * match goal with
        | |- context [rounds tm bp remaining ?rc' msgs' r ?w2] =>
            destruct (IH rc' msgs' r w2 (p0, Return r) eq_refl eq_refl)
              as (new & Hc & Hch);
            set (R := rounds tm bp remaining rc' msgs' r w2) in *
        end.
        cbn [client calls tool_state executed] in Hc.
        exists ((p0, Return r) :: new).
        split; [rewrite Hc; symmetry; apply (app_assoc _ [_] new)|].
        cbn [chained]. split; [apply Hcont|exact Hch].
    + exists [(p0, Raise x)]. split; [reflexivity|]. cbn. auto.
Qed.

(** X11.  The requests of a query form one growing conversation: the first
    holds the user message with the query and nothing else, and each later
    one replays the messages of the request before it, adds the blocks that
    request was answered with as the assistant turn and, when they asked for
    tools, one user message with a result per tool call, identified as the
    calls are and in their order. *)
Theorem requests_continue_the_conversation query history catalog
    (tm : option (ToolManager Tools)) w :
  exists first rest,
    calls (snd (generate query history catalog tm w)) = calls w ++ first :: rest
    /\ messages (fst first) = [mkMessage "user" (Text query)]
    /\ chained first rest.
Proof.
  unfold generate_response, bind at 1, create.
  set (p0 := make_params self_model [mkMessage "user" (Text query)]
               (system_content history)
               (if truthy_list catalog then catalog else None)).
  destruct (messages_create (client w) p0) as [[r|x] c] eqn:Hcall.
  - destruct (if String.eqb (stop_reason r) "tool_use" then tm else None) as [tm'|].
    + unfold _handle_tool_execution, bind.
      match goal with
      | |- context [tool_rounds _ _ _ tm' p0 ?n ?rc ?msgs r ?w2] =>
          destruct (tool_rounds_chained tm' p0 n rc msgs r w2 (p0, Return r)
                      eq_refl eq_refl) as (new & Hc & Hch);
          destruct (tool_rounds messages_create self_model MAX_TOOL_ROUNDS
                      tm' p0 n rc msgs r w2) as [[final|x] w'] eqn:HR
      end; cbn [snd calls ret] in Hc |- *.
      all: exists (p0, Return r), new.
      all: (split; [rewrite Hc; symmetry; apply (app_assoc _ [_] new)|]).
      all: split; [reflexivity|exact Hch].
    + rewrite content_0_text_world. exists (p0, Return r), []. cbn. auto.
  - exists (p0, Raise x), []. cbn. auto.
Qed.

(** X12.  A tool call that returns: its entry holds the identifier of the
    call and the text the tool returned, and is not tagged as an error,
    whatever the other calls of the round do. *)
Theorem successful_call_entry tm pre id name input post result t' :
  forall w,
  tm (tool_state_after tm pre (tool_state w)) name input = (Return result, t') ->
  exists results err w',
    execute_tool_calls tm (pre ++ ToolUseBlock id name input :: post) [] None w
    = (Return (results, err), w')
    /\ results !! length (tool_use_ids pre) = Some (mkToolResult id result false).
Proof.
  assert (Hgen : forall acc err w,
             tm (tool_state_after tm pre (tool_state w)) name input = (Return result, t') ->
             exists results err' w',
               execute_tool_calls tm (pre ++ ToolUseBlock id name input :: post) acc err w
               = (Return (acc ++ results, err'), w')
               /\ results !! length (tool_use_ids pre)
                  = Some (mkToolResult id result false)).
  { induction pre as [|b pre IH]; intros acc err w Hret.
    - cbn in *. unfold bind, try_execute_tool. rewrite Hret. cbn.
      destruct (execute_tool_calls_runs _ _ tm post
                  (acc ++ [mkToolResult id result false]) err
                  (mkWorld (client w) t' (calls w) (executed w ++ [(name, input)])))
        as (results & err' & Hrun & _ & _).
      exists (mkToolResult id result false :: results), err'. eexists.
      rewrite Hrun. rewrite <- !app_assoc. cbn. split; reflexivity.
    - destruct b as [text|id0 name0 input0|th]; cbn in *.
      + apply IH, Hret.
      + unfold bind, try_execute_tool.
        destruct (tm (tool_state w) name0 input0) as [[result0|e0] t0] eqn:E;
          cbn in Hret |- *.
        * destruct (IH (acc ++ [mkToolResult id0 result0 false]) err
                      (mkWorld (client w) t0 (calls w) (executed w ++ [(name0, input0)]))
                      Hret)
            as (results & err' & w' & Hrun & Hentry).
          exists (mkToolResult id0 result0 false :: results), err', w'.
          rewrite Hrun. rewrite <- !app_assoc. cbn. split; [reflexivity|exact Hentry].
        * destruct (IH (acc ++ [mkToolResult id0
                                  ("Tool execution error: " +:+ exc_str e0) true])
                      (Some e0)
                      (mkWorld (client w) t0 (calls w) (executed w ++ [(name0, input0)]))
                      Hret)
            as (results & err' & w' & Hrun & Hentry).
          exists (mkToolResult id0 ("Tool execution error: " +:+ exc_str e0) true
                    :: results), err', w'.
          rewrite Hrun. rewrite <- !app_assoc. cbn. split; [reflexivity|exact Hentry].
      + apply IH, Hret. }
  intros w Hret. destruct (Hgen [] None w Hret) as (results & err & w' & Hrun & Hentry).
  exists results, err, w'. split; [exact Hrun|exact Hentry].
Qed.

(** X13.  The direct answer: when the first response does not ask for
    tools, or no tool manager is at hand, and the response opens with a text
    block, that text is the answer, after one backend call and no tool
    invocation. *)
Theorem direct_answer query history catalog (tm : option (ToolManager Tools)) w r c t rest :
  messages_create (client w)
    (make_params self_model [mkMessage "user" (Text query)]
       (system_content history)
       (if truthy_list catalog then catalog else None))
  = (Return r, c) ->
  tm = None \/ stop_reason r <> "tool_use" ->
  content r = TextBlock t :: rest ->
  generate query history catalog tm w
  = (Return t,
     mkWorld c (tool_state w)
       (calls w
        ++ [(make_params self_model [mkMessage "user" (Text query)]
               (system_content history)
               (if truthy_list catalog then catalog else None),
             Return r)])
       (executed w)).
Proof.
  intros Hcall Hpath Hcontent. unfold generate_response, bind, create.
  rewrite Hcall.
  assert ((if String.eqb (stop_reason r) "tool_use" then tm else None) = None) as ->.
  { destruct Hpath as [->|Hne]; [apply Tauto.if_same|].
    apply String.eqb_neq in Hne. rewrite Hne. reflexivity. }
  unfold content_0_text. rewrite Hcontent. reflexivity.
Qed.

End Coverage.

(** A budget of zero in front of a backend that asks for a search: one
    call, no tool run, the empty text. *)
Lemma zero_budget_runs_no_tool_witness :
  exists p o,
    calls (snd (generate_response (return_value asks_search) "test-model" 0
                  "Query" None (Some search_catalog)
                  (Some (tool_returns "Result")) (fresh tt tt)))
    = calls (fresh tt tt) ++ [(p, o)]
    /\ executed (snd (generate_response (return_value asks_search) "test-model" 0
                        "Query" None (Some search_catalog)
                        (Some (tool_returns "Result")) (fresh tt tt)))
       = executed (fresh tt tt)
    /\ forall r,
         o = Return r -> stop_reason r = "tool_use" ->
         fst (generate_response (return_value asks_search) "test-model" 0
                "Query" None (Some search_catalog)
                (Some (tool_returns "Result")) (fresh tt tt))
         = Return (_extract_text_from_response r).
Proof.
  apply (zero_budget_runs_no_tool unit (return_value asks_search) unit "test-model" 0).
  reflexivity.
Defined.

(** The only call of [test_handle_tool_execution_returns_final_text]. *)
Lemma successful_call_entry_witness :
  exists results err w',
    execute_tool_calls (tool_returns "Tool output")
      ([] ++ ToolUseBlock "t1" "search_course_content" [("query", JString "q1")] :: [])
      [] None (fresh tt tt)
    = (Return (results, err), w')
    /\ results !! length (tool_use_ids [])
       = Some (mkToolResult "t1" "Tool output" false).
Proof.
  apply (successful_call_entry unit unit (tool_returns "Tool output") []
           "t1" "search_course_content" [("query", JString "q1")] []
           "Tool output" tt (fresh tt tt)).
  reflexivity.
Defined.

(** The run of [test_generate_response_returns_text]. *)
Lemma direct_answer_witness :
  generate_response side_effect "test-model" 2 "What is 2+2?" None None
    (@None (ToolManager unit))
    (fresh [Return (text_response "Direct answer text")] tt)
  = (Return "Direct answer text",
     mkWorld [] tt
       (calls (fresh [Return (text_response "Direct answer text")] tt)
        ++ [(make_params "test-model" [mkMessage "user" (Text "What is 2+2?")]
               (system_content None) None,
             Return (text_response "Direct answer text"))])
       (executed (fresh [Return (text_response "Direct answer text")] tt))).
Proof.
  apply (direct_answer _ side_effect unit "test-model" 2 "What is 2+2?" None None None
           (fresh [Return (text_response "Direct answer text")] tt)
           (text_response "Direct answer text") [] "Direct answer text" []).
  - reflexivity.
  - left. reflexivity.
  - reflexivity.
Defined.

End AIGeneratorCoverage.
